(** * CementCycle scoring engine: a shallow embedding and its properties

    The definitions below transcribe the scoring helpers of
    [functions/index.js] (compatibility, CO2 impact, revenue, dynamic
    pricing, distance, logistics cost) and the record built by the
    [createMatch] handler.

    Conventions of the model:
    - a JavaScript Number is a binary64 value ([float], Rocq's primitive
      floats), so products such as [quantity * 0.8] round as they do at run
      time;
    - a String is a [string] of code units below 256;
    - a thrown exception is the outcome [Throw], a normal completion is
      [Return];
    - the object literals used as lookup tables inherit from
      [Object.prototype], as every object literal does;
    - an argument is any scalar a JSON document can hold (undefined, null,
      a boolean, a number, a string); a requirement is a record of such
      scalars whose materials list may also be an array of them.  Arrays
      and objects in the place of a scalar are outside the model. *)

From Stdlib Require Import ZArith List String Ascii Bool Lia.
From Stdlib Require Import Floats DecimalString Permutation Sorted.
Import ListNotations.

#[local] Set Warnings "-inexact-float".
#[local] Open Scope string_scope.
#[local] Open Scope Z_scope.

(** ** Outcomes of a call *)

Inductive error : Type := TypeError.

Inductive result (A : Type) : Type :=
| Return (a : A)
| Throw (e : error).

Arguments Return {A} a.
Arguments Throw {A} e.

Definition bind {A B : Type} (r : result A) (k : A -> result B) : result B :=
  match r with
  | Return a => k a
  | Throw e => Throw e
  end.

Notation "x <- r ;; k" := (bind r (fun x => k))
  (at level 61, r at next level, right associativity).

(** ** Values *)

Module JS.

(** Objects of the host that a property read on an object literal can
    reach through the prototype chain. *)
Inductive builtin : Type :=
| ObjectConstructor
| ObjectPrototype
| PrototypeMethod (name : string).

(** The values that flow through the scoring functions: the scalars of a
    JSON document and the built-in objects above. *)
Inductive value : Type :=
| Undefined
| Null
| Bool (b : bool)
| Num (x : float)
| Str (s : string)
| Builtin (b : builtin).

(** A field of a stored document: a scalar or an array of scalars. *)
Inductive field : Type :=
| Scalar (v : value)
| Array (elems : list value).

(** *** Strings *)

Definition code (c : ascii) : Z := Z.of_nat (nat_of_ascii c).

Definition char (n : Z) : ascii := ascii_of_nat (Z.to_nat n).

(** [String.prototype.toLowerCase] on code units below 256: Latin capital
    letters (A-Z, and U+00C0-U+00DE except the multiplication sign) move down
    by 32. *)
Definition lower_char (c : ascii) : ascii :=
  let n := code c in
  if ((65 <=? n) && (n <=? 90)) || ((192 <=? n) && (n <=? 222) && negb (n =? 215))
  then char (n + 32) else c.

Fixpoint lower (s : string) : string :=
  match s with
  | EmptyString => EmptyString
  | String c r => String (lower_char c) (lower r)
  end.

(** [s.replace(from, to)] with single-character string arguments: only
    the first occurrence is replaced. *)
Fixpoint replace_first (from to : ascii) (s : string) : string :=
  match s with
  | EmptyString => EmptyString
  | String c r =>
      if Ascii.eqb c from then String to r else String c (replace_first from to r)
  end.

Fixpoint starts_with (p s : string) : bool :=
  match p, s with
  | EmptyString, _ => true
  | String a p', String b s' => Ascii.eqb a b && starts_with p' s'
  | String _ _, EmptyString => false
  end.

(** [s.includes(p)] *)
Fixpoint has_substring (p s : string) : bool :=
  starts_with p s ||
  match s with
  | EmptyString => false
  | String _ r => has_substring p r
  end.

(** Code-unit order of two strings, as the relational operators use it. *)
Fixpoint string_ltb (s t : string) : bool :=
  match s, t with
  | _, EmptyString => false
  | EmptyString, String _ _ => true
  | String a s', String b t' =>
      if code a <? code b then true
      else if code b <? code a then false
      else string_ltb s' t'
  end.

Fixpoint rev_onto (s acc : string) : string :=
  match s with
  | EmptyString => acc
  | String c r => rev_onto r (String c acc)
  end.

Definition string_rev (s : string) : string := rev_onto s EmptyString.

(** *** Numbers *)

Definition float_of_Z (n : Z) : float := SF2Prim (binary_normalize prec emax n 0 false).

(** The binary64 value nearest to [n / d], for [d > 0]. *)
Definition float_of_ratio (n d : Z) : float :=
  match n, d with
  | Zpos p, Zpos q => SF2Prim (SFdiv prec emax (S754_finite false p 0) (S754_finite false q 0))
  | Zneg p, Zpos q => SF2Prim (SFdiv prec emax (S754_finite true p 0) (S754_finite false q 0))
  | _, _ => 0%float
  end.

(** The binary64 value nearest to [m * 10 ^ e]. *)
Definition float_of_decimal (m e : Z) : float :=
  if 0 <=? e then float_of_Z (m * 10 ^ e) else float_of_ratio m (10 ^ (- e)).

(** **** StringToNumber *)

Definition is_whitespace (c : ascii) : bool :=
  let n := code c in
  ((9 <=? n) && (n <=? 13)) || (n =? 32) || (n =? 160).

Fixpoint trim_start (s : string) : string :=
  match s with
  | EmptyString => EmptyString
  | String c r => if is_whitespace c then trim_start r else s
  end.

Definition trim (s : string) : string :=
  string_rev (trim_start (string_rev (trim_start s))).

Definition digit_value (base : Z) (c : ascii) : option Z :=
  let n := code c in
  let d := if (48 <=? n) && (n <=? 57) then n - 48
           else if (97 <=? n) && (n <=? 102) then n - 87
           else if (65 <=? n) && (n <=? 70) then n - 55
           else base in
  if d <? base then Some d else None.

(** The longest prefix of digits: its value, its length, and what follows. *)
Fixpoint digits_prefix (base : Z) (s : string) (acc len : Z) : Z * Z * string :=
  match s with
  | EmptyString => (acc, len, s)
  | String c r =>
      match digit_value base c with
      | Some d => digits_prefix base r (base * acc + d) (len + 1)
      | None => (acc, len, s)
      end
  end.

(** A string made of one or more digits in the given base. *)
Definition all_digits (base : Z) (s : string) : option Z :=
  match digits_prefix base s 0 0 with
  | (n, len, EmptyString) => if 0 <? len then Some n else None
  | _ => None
  end.

(** ExponentPart, or nothing. *)
Definition exponent_part (s : string) : option Z :=
  match s with
  | EmptyString => Some 0
  | String c r =>
      if (code c =? 101) || (code c =? 69) then
        match r with
        | String "+" r' => all_digits 10 r'
        | String "-" r' => option_map Z.opp (all_digits 10 r')
        | _ => all_digits 10 r
        end
      else None
  end.

(** StrUnsignedDecimalLiteral *)
Definition unsigned_decimal (s : string) : option float :=
  if String.eqb s "Infinity" then Some infinity else
  let '(ip, ilen, r1) := digits_prefix 10 s 0 0 in
  let '(m, flen, r2) :=
    match r1 with
    | String "." r => digits_prefix 10 r ip 0
    | _ => (ip, 0, r1)
    end in
  if 0 <? ilen + flen then
    match exponent_part r2 with
    | Some e => Some (float_of_decimal m (e - flen))
    | None => None
    end
  else None.

Definition StringToNumber (s : string) : float :=
  let t := trim s in
  let nondecimal (base : Z) (digits : string) :=
    match all_digits base digits with
    | Some n => float_of_Z n
    | None => nan
    end in
  match t with
  | EmptyString => 0%float
  | String "0" (String "x" r) | String "0" (String "X" r) => nondecimal 16 r
  | String "0" (String "o" r) | String "0" (String "O" r) => nondecimal 8 r
  | String "0" (String "b" r) | String "0" (String "B" r) => nondecimal 2 r
  | String "+" r =>
      match unsigned_decimal r with Some x => x | None => nan end
  | String "-" r =>
      match unsigned_decimal r with Some x => (- x)%float | None => nan end
  | _ =>
      match unsigned_decimal t with Some x => x | None => nan end
  end.

(** **** Coercions *)

(** Source text of a built-in, as [Function.prototype.toString] and
    [Object.prototype.toString] give it. *)
Definition builtin_text (b : builtin) : string :=
  match b with
  | ObjectConstructor => "function Object() { [native code] }"
  | ObjectPrototype => "[object Object]"
  | PrototypeMethod name => "function " ++ name ++ "() { [native code] }"
  end.

Definition ToPrimitive (v : value) : value :=
  match v with
  | Builtin b => Str (builtin_text b)
  | _ => v
  end.

Definition ToBoolean (v : value) : bool :=
  match v with
  | Undefined | Null => false
  | Bool b => b
  | Num x => negb ((x =? 0)%float || is_nan x)
  | Str s => negb (String.eqb s "")
  | Builtin _ => true
  end.

Definition ToNumber (v : value) : float :=
  match ToPrimitive v with
  | Undefined => nan
  | Null => 0%float
  | Bool b => if b then 1%float else 0%float
  | Num x => x
  | Str s => StringToNumber s
  | Builtin _ => nan
  end.

(** [a || b] *)
Definition or_else (a b : value) : value := if ToBoolean a then a else b.

(** [a < b] *)
Definition less_than (a b : value) : bool :=
  match ToPrimitive a, ToPrimitive b with
  | Str s, Str t => string_ltb s t
  | _, _ => (ToNumber a <? ToNumber b)%float
  end.

(** [a >= b]: false when either side is NaN. *)
Definition greater_equal (a b : value) : bool :=
  match ToPrimitive a, ToPrimitive b with
  | Str s, Str t => negb (string_ltb s t)
  | _, _ => (ToNumber b <=? ToNumber a)%float
  end.

(** [a === b] *)
Definition strict_equal (a b : value) : bool :=
  match a, b with
  | Undefined, Undefined | Null, Null => true
  | Bool x, Bool y => Bool.eqb x y
  | Num x, Num y => (x =? y)%float
  | Str s, Str t => String.eqb s t
  | Builtin (PrototypeMethod m), Builtin (PrototypeMethod n) => String.eqb m n
  | Builtin ObjectConstructor, Builtin ObjectConstructor => true
  | Builtin ObjectPrototype, Builtin ObjectPrototype => true
  | _, _ => false
  end.

(** SameValueZero, the comparison of [Array.prototype.includes]. *)
Definition SameValueZero (a b : value) : bool :=
  match a, b with
  | Num x, Num y => (x =? y)%float || (is_nan x && is_nan y)
  | _, _ => strict_equal a b
  end.

(** *** Optional chaining on string methods *)

(** [v?.toLowerCase()]: [None] stands for the [undefined] that the chain
    yields on a nullish receiver; a receiver that is not a string has no
    such method. *)
Definition toLowerCase_optional (v : value) : result (option string) :=
  match v with
  | Undefined | Null => Return None
  | Str s => Return (Some (lower s))
  | _ => Throw TypeError
  end.

(** [v?.toLowerCase().replace(' ', '_')] *)
Definition material_key (v : value) : result (option string) :=
  k <- toLowerCase_optional v ;;
  Return (option_map (replace_first " " "_") k).

Definition of_optional (k : option string) : value :=
  match k with
  | Some s => Str s
  | None => Undefined
  end.

(** *** Property reads on an object literal *)

Definition Object_prototype (key : string) : option builtin :=
  if String.eqb key "constructor" then Some ObjectConstructor
  else if String.eqb key "__proto__" then Some ObjectPrototype
  else if existsb (String.eqb key)
            ["toString"; "toLocaleString"; "valueOf"; "hasOwnProperty";
             "isPrototypeOf"; "propertyIsEnumerable";
             "__defineGetter__"; "__defineSetter__";
             "__lookupGetter__"; "__lookupSetter__"]
       then Some (PrototypeMethod key)
  else None.

Inductive entry (A : Type) : Type :=
| Own (a : A)
| Inherited (b : builtin).

Arguments Own {A} a.
Arguments Inherited {A} b.

Fixpoint own_property {A : Type} (table : list (string * A)) (key : string) : option A :=
  match table with
  | [] => None
  | (k, a) :: rest => if String.eqb k key then Some a else own_property rest key
  end.

(** The property name a key stands for; the [undefined] of a stopped
    optional chain ([None]) names the property "undefined". *)
Definition property_name (key : option string) : string :=
  match key with
  | Some s => s
  | None => "undefined"
  end.

(** [table[key]]: the own property if there is one, else what
    [Object.prototype] has under that name, else [undefined] ([None]). *)
Definition property {A : Type} (table : list (string * A)) (key : option string)
  : option (entry A) :=
  let name := property_name key in
  match own_property table name with
  | Some a => Some (Own a)
  | None => option_map Inherited (Object_prototype name)
  end.

(** *** Math and Number.prototype *)

(** [Math.round]: the nearest integer, ties towards +Infinity. *)
Definition Math_round (x : float) : float :=
  match Prim2SF x with
  | S754_finite s m e =>
      if 0 <=? e then x
      else
        let v := if s then Zneg m else Zpos m in
        let n := (2 * v + 2 ^ (- e)) / 2 ^ (1 - e) in
        if n =? 0 then (if s then (-0)%float else 0%float) else float_of_Z n
  | _ => x
  end.

(** [Math.min] of two numbers. *)
Definition Math_min (a b : float) : float :=
  if is_nan a || is_nan b then nan
  else if (a <? b)%float then a
  else if (b <? a)%float then b
  else if get_sign a then a else b.

(** Text produced from a number.  [Scientific x] stands for the
    exponent-notation text [Number::toString] gives a finite [x] of
    magnitude at least 1e21, whose digits this model does not generate. *)
Inductive numtext : Type :=
| Digits (s : string)
| Scientific (x : float).

Definition decimal (n : Z) : string := NilZero.string_of_uint (N.to_uint (Z.to_N n)).

(** [x.toFixed(1)]: with [n] the integer nearest to [10 * |x|] (the larger
    one on a tie), the digits of [n] with a point before the last one. *)
Definition toFixed1 (x : float) : numtext :=
  match Prim2SF x with
  | S754_nan => Digits "NaN"
  | S754_infinity s => Digits (if s then "-Infinity" else "Infinity")
  | S754_zero _ => Digits "0.0"
  | S754_finite s m e =>
      if (1e21 <=? abs x)%float then Scientific x
      else
        let n := if 0 <=? e then 10 * Zpos m * 2 ^ e
                 else (2 * (10 * Zpos m) + 2 ^ (- e)) / 2 ^ (1 - e) in
        Digits ((if s then "-" else "") ++ decimal (n / 10) ++ "." ++ decimal (n mod 10))
  end.

(** [ToNumber] of such a text, where the model has its digits. *)
Definition numtext_value (t : numtext) : float :=
  match t with
  | Digits s => StringToNumber s
  | Scientific x => x
  end.

End JS.

Import JS.

(** ** Documents *)

(** A cement-plant requirement, as the matcher reads it. *)
Record cement_requirement : Type := {
  materials_needed : field;
  capacity : value;
  urgency : value;
  price_offered : value
}.

(** A waste listing, as [createMatch] reads it. *)
Record waste_listing : Type := {
  type : value;
  quantity : value;
  quality_grade : value
}.

(** ** Compatibility score *)

(** The running [score]: a number, held as an integer while only integers
    have been added, or the text that [+=] produces once an object has been
    added to it. *)
Inductive score : Type :=
| Points (n : Z)
| Text (s : string).

Definition score_text (sc : score) : string :=
  match sc with
  | Points n => decimal n
  | Text s => s
  end.

Definition score_number (sc : score) : float :=
  match sc with
  | Points n => float_of_Z n
  | Text s => StringToNumber s
  end.

(** [score += n] *)
Definition add_points (sc : score) (n : Z) : score :=
  match sc with
  | Points m => Points (m + n)
  | Text s => Text (s ++ decimal n)
  end.

(** [score += e], where [e] was read from a table of integers. *)
Definition add_entry (sc : score) (e : entry Z) : score :=
  match e with
  | Own n => add_points sc n
  | Inherited b => Text (score_text sc ++ builtin_text b)
  end.

(** [materials?.includes(wasteType?.toLowerCase())]: on a nullish receiver
    the chain stops before the argument is evaluated. *)
Definition includes_optional (materials : field) (wasteType : value) : result bool :=
  match materials with
  | Scalar Undefined | Scalar Null => Return false
  | Array elems =>
      k <- toLowerCase_optional wasteType ;;
      Return (existsb (SameValueZero (of_optional k)) elems)
  | Scalar (Str s) =>
      k <- toLowerCase_optional wasteType ;;
      Return (has_substring (match k with Some t => t | None => "undefined" end) s)
  | Scalar _ => Throw TypeError
  end.

Definition qualityScores : list (string * Z) :=
  [("premium", 15); ("grade_a", 12); ("grade_1", 12); ("standard", 8)].

(** [qualityScores[key] || 5] *)
Definition quality_points (key : option string) : entry Z :=
  match property qualityScores key with
  | Some (Own n) => if n =? 0 then Own 5 else Own n
  | Some (Inherited b) => Inherited b
  | None => Own 5
  end.

Definition calculateAdvancedCompatibility
  (wasteType quantity qualityGrade : value) (requirement : option cement_requirement)
  : result float :=
  let score := Points 50 in
  match requirement with
  | None => Throw TypeError
  | Some requirement =>
      matched <- includes_optional (materials_needed requirement) wasteType ;;
      let score := if matched then add_points score 25 else score in
      let score :=
        if greater_equal (capacity requirement) quantity then add_points score 15
        else if greater_equal (capacity requirement) (Num (ToNumber quantity * 0.7))
             then add_points score 10
             else score in
      grade <- toLowerCase_optional qualityGrade ;;
      let score := add_entry score (quality_points grade) in
      let score :=
        if strict_equal (urgency requirement) (Str "high") then add_points score 8
        else score in
      Return (Math_min (score_number score) 98)
  end.

(** ** CO2 impact *)

Record coefficient : Type := {
  co2_per_ton : float;
  description : string
}.

Definition coefficients : list (string * coefficient) :=
  [("fly_ash", {| co2_per_ton := 0.8; description := "Replaces cement production" |});
   ("steel_slag", {| co2_per_ton := 0.7; description := "Reduces limestone mining" |});
   ("silica_fume", {| co2_per_ton := 1.2; description := "High-efficiency replacement" |});
   ("bottom_ash", {| co2_per_ton := 0.6; description := "Reduces aggregate extraction" |})].

Definition default_coefficient : coefficient :=
  {| co2_per_ton := 0.5; description := "General waste material" |}.

(** [coefficients[key] || default] *)
Definition coefficient_for (key : option string) : entry coefficient :=
  match property coefficients key with
  | Some e => e
  | None => Own default_coefficient
  end.

Record co2_impact : Type := {
  co2_saved : numtext;
  trees_equivalent : float;
  carbon_credits : float;
  process_description : value;
  cement_offset : numtext;
  water_saved : numtext;
  energy_offset : numtext;
  air_quality_improvement : numtext
}.

(** The local [co2Saved] of [calculateCO2Impact], before it is formatted. *)
Definition co2Saved (c : entry coefficient) (quantity : value) : float :=
  let per_ton := match c with
                 | Own c => Num (co2_per_ton c)
                 | Inherited _ => Undefined
                 end in
  (ToNumber quantity * ToNumber per_ton)%float.

Definition calculateCO2Impact (wasteType quantity : value) : result co2_impact :=
  key <- material_key wasteType ;;
  let coefficient := coefficient_for key in
  let co2Saved := co2Saved coefficient quantity in
  let treesEquivalent := Math_round (co2Saved * 1.2) in
  let carbonCredits := (co2Saved * 1200)%float in
  Return {|
    co2_saved := toFixed1 co2Saved;
    trees_equivalent := treesEquivalent;
    carbon_credits := Math_round carbonCredits;
    process_description :=
      match coefficient with
      | Own c => Str (description c)
      | Inherited _ => Undefined
      end;
    cement_offset := toFixed1 (ToNumber quantity * 0.85);
    water_saved := toFixed1 (ToNumber quantity * 2.5);
    energy_offset := toFixed1 (co2Saved * 2.1);
    air_quality_improvement := toFixed1 (ToNumber quantity * 0.3)
  |}.

(** ** Revenue *)

Definition qualityMultipliers : list (string * float) :=
  [("premium", 1.15%float); ("grade_a", 1.08%float); ("grade_1", 1.08%float);
   ("standard", 1.0%float); ("below_standard", 0.85%float)].

(** The value read from a table of numbers. *)
Definition entry_value (e : option (entry float)) : value :=
  match e with
  | Some (Own x) => Num x
  | Some (Inherited b) => Builtin b
  | None => Undefined
  end.

Definition calculateDynamicRevenue (quantity pricePerTon qualityGrade : value)
  : result float :=
  if negb (ToBoolean quantity) || negb (ToBoolean pricePerTon) then Return 0%float
  else
    let baseRevenue := (ToNumber quantity * ToNumber pricePerTon)%float in
    baseRevenue <-
      (if ToBoolean qualityGrade then
         match qualityGrade with
         | Str s =>
             let m := or_else (entry_value (property qualityMultipliers (Some (lower s))))
                              (Num 1.0) in
             Return (baseRevenue * ToNumber m)%float
         | _ => Throw TypeError
         end
       else Return baseRevenue) ;;
    let baseRevenue :=
      if greater_equal quantity (Num 1000) then (baseRevenue * 1.12)%float
      else if greater_equal quantity (Num 500) then (baseRevenue * 1.08)%float
      else baseRevenue in
    Return (Math_round baseRevenue).

(** ** Dynamic pricing *)

Record price_data : Type := {
  base : float;
  trend : float;
  volatility : float
}.

Definition basePrices : list (string * price_data) :=
  [("fly_ash", {| base := 2800; trend := 1.05; volatility := 0.12 |});
   ("steel_slag", {| base := 2200; trend := 1.08; volatility := 0.15 |});
   ("silica_fume", {| base := 4500; trend := 1.12; volatility := 0.08 |});
   ("bottom_ash", {| base := 1800; trend := 1.03; volatility := 0.10 |})].

Definition default_price_data : price_data :=
  {| base := 2500; trend := 1.0; volatility := 0.10 |}.

(** [basePrices[key] || default] *)
Definition price_data_for (key : option string) : entry price_data :=
  match property basePrices key with
  | Some e => e
  | None => Own default_price_data
  end.

(** [priceData.base] and [priceData.trend] *)
Definition base_of (p : entry price_data) : value :=
  match p with
  | Own d => Num (base d)
  | Inherited _ => Undefined
  end.

Definition trend_of (p : entry price_data) : value :=
  match p with
  | Own d => Num (trend d)
  | Inherited _ => Undefined
  end.

(** [qualityMultipliers[grade?.toLowerCase()] || 1.0] *)
Definition qualityMultiplier (grade : option string) : value :=
  or_else (entry_value (property qualityMultipliers grade)) (Num 1.0).

Record price_analysis : Type := {
  base_price : float;
  quality_multiplier : value;
  volume_tier : string;
  volume_adjustment : string;
  location_premium : string;
  final_price : float;
  total_value : value;
  quality_bonus : float;
  bulk_premium : Z;
  express_premium : Z;
  carbon_credit_bonus : Z
}.

(** The local [finalPrice] of [calculateDynamicPricing] after the volume
    branch, with the label the branch assigns to [volumeAdjustment]. *)
Definition finalPrice (priceData : entry price_data) (qualityMultiplier quantity : value)
  : float * string :=
  let finalPrice := (ToNumber (base_of priceData) * ToNumber (trend_of priceData))%float in
  let finalPrice := (finalPrice * ToNumber qualityMultiplier)%float in
  if greater_equal quantity (Num 1000) then
    ((finalPrice * 1.12)%float, "Bulk Premium (+12%)")
  else if greater_equal quantity (Num 500) then
    ((finalPrice * 1.08)%float, "Volume Premium (+8%)")
  else if less_than quantity (Num 100) then
    ((finalPrice * 0.95)%float, "Small Batch (-5%)")
  else
    (finalPrice, "Standard Rate").

(** The source function is [async]: [Throw] stands for the rejection of the
    promise it returns, [Return] for its fulfilment. *)
Definition calculateDynamicPricing (wasteType location quantity qualityGrade : value)
  : result price_analysis :=
  key <- material_key wasteType ;;
  let priceData := price_data_for key in
  grade <- toLowerCase_optional qualityGrade ;;
  let qualityMultiplier := qualityMultiplier grade in
  let '(finalPrice, volumeAdjustment) := finalPrice priceData qualityMultiplier quantity in
  Return {|
    base_price := Math_round (ToNumber (base_of priceData));
    quality_multiplier := qualityMultiplier;
    volume_tier :=
      if greater_equal quantity (Num 1000) then "Bulk"
      else if greater_equal quantity (Num 500) then "Volume" else "Standard";
    volume_adjustment := volumeAdjustment;
    location_premium := "0% (Base location)";
    final_price := Math_round finalPrice;
    total_value :=
      if ToBoolean quantity then Num (Math_round (finalPrice * ToNumber quantity)) else Null;
    quality_bonus :=
      Math_round ((ToNumber qualityMultiplier - 1) * ToNumber (base_of priceData));
    bulk_premium :=
      if greater_equal quantity (Num 500)
      then (if greater_equal quantity (Num 1000) then 12 else 8) else 0;
    express_premium := 150;
    carbon_credit_bonus := 15
  |}.

(** ** Distance and logistics *)

Record coordinates : Type := {
  lat : float;
  lng : float
}.

Definition cityCoordinates : list (string * coordinates) :=
  [("mumbai", {| lat := 19.0760; lng := 72.8777 |});
   ("chennai", {| lat := 13.0827; lng := 80.2707 |});
   ("bangalore", {| lat := 12.9716; lng := 77.5946 |});
   ("pune", {| lat := 18.5204; lng := 73.8567 |});
   ("delhi", {| lat := 28.7041; lng := 77.1025 |});
   ("kolkata", {| lat := 22.5726; lng := 88.3639 |})].

(** [cityCoordinates[key] || cityCoordinates[fallback]] *)
Definition city_for (key : option string) (fallback : string) : option (entry coordinates) :=
  match property cityCoordinates key with
  | Some e => Some e
  | None => property cityCoordinates (Some fallback)
  end.

Definition lat_of (c : option (entry coordinates)) : float :=
  match c with
  | Some (Own c) => lat c
  | _ => nan
  end.

Definition lng_of (c : option (entry coordinates)) : float :=
  match c with
  | Some (Own c) => lng c
  | _ => nan
  end.

Definition Math_PI : float := 3.141592653589793.

Section Distance.

(** The transcendental functions of [Math] are approximations left to the
    host; the distance is defined for any choice of them. *)
Variables Math_sin Math_cos Math_sqrt : float -> float.
Variable Math_atan2 : float -> float -> float.

Definition calculateOptimalDistance (location1 location2 : value) : result float :=
  k1 <- toLowerCase_optional location1 ;;
  let city1 := city_for k1 "mumbai" in
  k2 <- toLowerCase_optional location2 ;;
  let city2 := city_for k2 "pune" in
  let R := 6371%float in
  let dLat := ((lat_of city2 - lat_of city1) * Math_PI / 180)%float in
  let dLng := ((lng_of city2 - lng_of city1) * Math_PI / 180)%float in
  let a := (Math_sin (dLat / 2) * Math_sin (dLat / 2) +
            Math_cos (lat_of city1 * Math_PI / 180) * Math_cos (lat_of city2 * Math_PI / 180) *
            Math_sin (dLng / 2) * Math_sin (dLng / 2))%float in
  let c := (2 * Math_atan2 (Math_sqrt a) (Math_sqrt (1 - a)))%float in
  Return (Math_round (R * c)).

End Distance.

Definition estimateLogisticsCost (distance quantity : value) : result float :=
  let baseCostPerKm := 45%float in
  let baseCost := (ToNumber distance * baseCostPerKm)%float in
  let volumeDiscount :=
    if greater_equal quantity (Num 500) then 0.8%float
    else if greater_equal quantity (Num 200) then 0.9%float else 1.0%float in
  Return (Math_round (baseCost * volumeDiscount)).

(** ** The createMatch handler *)

(** A [Date]: a time value in milliseconds, or the invalid date that
    [new Date(t)] yields when [t] is out of range. *)
Inductive date : Type :=
| Date (t : Z)
| InvalidDate.

Definition new_Date (t : Z) : date :=
  if Z.abs t <=? 8640000000000000 then Date t else InvalidDate.

Record match_record : Type := {
  waste_id : value;
  requirement_id : value;
  waste_data : waste_listing;
  requirement_data : cement_requirement;
  match_score : float;
  status : string;
  user_info : option value;
  contact_preference : value;
  created_at : date;
  expires_at : date;
  estimated_co2_savings : numtext;
  estimated_revenue : float
}.

(** The outcome of a call of the document store's client, which is no part
    of the repository: the promise it returns resolves with a value or is
    rejected.  An exception the client throws before it returns a promise
    counts as a rejection: both end in the handler's [catch]. *)
Inductive outcome (A : Type) : Type :=
| Resolved (a : A)
| Rejected.

Arguments Resolved {A} a.
Arguments Rejected {A}.

(** What the handler sees of the outside.  The document store is taken as
    it answers: [listings] and [requirements] give, for the identifier
    passed to [collection.doc(id).get()], a document, no document, or a
    rejection; [matches_add], [notifications_add] and [metrics_set] are the
    outcomes of the three writes, and [FieldValue_increment] is the outcome
    of evaluating [db.FieldValue.increment(1)] on the store's instance.
    [matches] is the collection the handler appends to, and the system clock
    is the sequence of its successive readings. *)
Record world : Type := {
  listings : value -> outcome (option waste_listing);
  requirements : value -> outcome (option cement_requirement);
  matches : list match_record;
  matches_add : outcome unit;
  notifications_add : outcome unit;
  FieldValue_increment : result unit;
  metrics_set : outcome unit;
  clock : nat -> Z;
  reads : nat
}.

(** [Date.now()], also the reading behind [new Date()]. *)
Definition Date_now (w : world) : Z * world :=
  (clock w (reads w),
   {| listings := listings w; requirements := requirements w; matches := matches w;
      matches_add := matches_add w; notifications_add := notifications_add w;
      FieldValue_increment := FieldValue_increment w; metrics_set := metrics_set w;
      clock := clock w; reads := S (reads w) |}).

(** The effect of a resolved [db.collection(...).add(matchData)]. *)
Definition add_match (m : match_record) (w : world) : world :=
  {| listings := listings w; requirements := requirements w; matches := matches w ++ [m];
     matches_add := matches_add w; notifications_add := notifications_add w;
     FieldValue_increment := FieldValue_increment w; metrics_set := metrics_set w;
     clock := clock w; reads := reads w |}.

Record request_body : Type := {
  wasteId : value;
  requirementId : value;
  userInfo : value;
  contactPreference : value
}.

Inductive response : Type :=
| BadRequest
| NotFound
| ServerError
| Created (m : match_record).

(** The object literal [matchData]: its properties are evaluated in source
    order, so the clock is read once for [created_at] and once more for
    [expires_at]. *)
Definition matchData (body : request_body) (wasteData : waste_listing)
  (requirementData : cement_requirement) (matchScore : float) (w : world)
  : result match_record * world :=
  let '(t1, w) := Date_now w in
  let created := new_Date t1 in
  let '(t2, w) := Date_now w in
  let expires := new_Date (t2 + 7 * 24 * 60 * 60 * 1000) in
  (impact <- calculateCO2Impact (type wasteData) (quantity wasteData) ;;
   revenue <- calculateDynamicRevenue (quantity wasteData) (price_offered requirementData)
                Undefined ;;
   Return {|
     waste_id := wasteId body;
     requirement_id := requirementId body;
     waste_data := wasteData;
     requirement_data := requirementData;
     match_score := matchScore;
     status := "pending_contact";
     user_info := if ToBoolean (userInfo body) then Some (userInfo body) else None;
     contact_preference := or_else (contactPreference body) (Str "email");
     created_at := created;
     expires_at := expires;
     estimated_co2_savings := co2_saved impact;
     estimated_revenue := revenue
   |}, w).

(** The notification document carries [timestamp: new Date()]: the clock is
    read before the write is attempted. *)
Definition sendEnhancedNotifications (w : world) : outcome unit * world :=
  let '(_, w) := Date_now w in
  (notifications_add w, w).

(** The arguments of [metricsRef.set] are evaluated in source order:
    [db.FieldValue.increment(1)] first, and the two [new Date()] only when
    it has returned. *)
Definition updateMatchingMetrics (w : world) : outcome unit * world :=
  match FieldValue_increment w with
  | Return _ =>
      let '(_, w) := Date_now w in
      let '(_, w) := Date_now w in
      (metrics_set w, w)
  | Throw _ => (Rejected, w)
  end.

(** The handler.  The reply is the success reply, here [Created], only when
    the notification and the metrics update that follow the write of the
    match have gone through; an exception or a rejection anywhere inside
    [try] becomes the 500 reply, also after the match has been written. *)
Definition createMatch (body : request_body) (w : world) : response * world :=
  if negb (ToBoolean (wasteId body)) || negb (ToBoolean (requirementId body))
  then (BadRequest, w)
  else
    match listings w (wasteId body), requirements w (requirementId body) with
    | Resolved (Some wasteData), Resolved (Some requirementData) =>
        match calculateAdvancedCompatibility (type wasteData) (quantity wasteData)
                (quality_grade wasteData) (Some requirementData) with
        | Return matchScore =>
            match matchData body wasteData requirementData matchScore w with
            | (Return m, w) =>
                match matches_add w with
                | Resolved _ =>
                    let w := add_match m w in
                    match sendEnhancedNotifications w with
                    | (Resolved _, w) =>
                        match updateMatchingMetrics w with
                        | (Resolved _, w) => (Created m, w)
                        | (Rejected, w) => (ServerError, w)
                        end
                    | (Rejected, w) => (ServerError, w)
                    end
                | Rejected => (ServerError, w)
                end
            | (Throw _, w) => (ServerError, w)
            end
        | Throw _ => (ServerError, w)
        end
    | Resolved _, Resolved _ => (NotFound, w)
    | _, _ => (ServerError, w)
    end.

(** ** Vocabulary of the statements *)

(** A string argument as the callers mean it: a string, or absent. *)
Definition string_or_absent (v : value) : bool :=
  match v with
  | Undefined | Null | Str _ => true
  | _ => false
  end.

(** A materials list as the callers mean it: an array, a string, or absent. *)
Definition list_or_absent (f : field) : bool :=
  match f with
  | Array _ | Scalar Undefined | Scalar Null | Scalar (Str _) => true
  | _ => false
  end.

(** An argument that is absent or zero. *)
Definition absent_or_zero (v : value) : bool :=
  match v with
  | Undefined | Null => true
  | Num x => (x =? 0)%float
  | _ => false
  end.

(** The table key a grade or a location stands for: its lower-cased text. *)
Definition lower_key (v : value) : option string :=
  match v with
  | Str s => Some (lower s)
  | _ => None
  end.

(** The table key a material type stands for: lower-cased, first space
    turned into an underscore. *)
Definition material_name (v : value) : option string :=
  match v with
  | Str s => Some (replace_first " " "_" (lower s))
  | _ => None
  end.

(** A key that names nothing on [Object.prototype]. *)
Definition plain_key (key : option string) : bool :=
  match Object_prototype (property_name key) with
  | None => true
  | Some _ => false
  end.

(** *** The compatibility rules, in the words of the specification *)

Definition spec_capacity_bonus (capacity quantity : value) : Z :=
  if greater_equal capacity quantity then 15
  else if greater_equal capacity (Num (ToNumber quantity * 0.7)) then 10
  else 0.

Definition spec_quality_bonus (grade : option string) : Z :=
  match grade with
  | None => 5
  | Some g =>
      if String.eqb g "premium" then 15
      else if String.eqb g "grade_a" || String.eqb g "grade_1" then 12
      else if String.eqb g "standard" then 8
      else 5
  end.

Definition spec_urgency_bonus (urgency : value) : Z :=
  if strict_equal urgency (Str "high") then 8 else 0.

(** Base 50, the material bonus when [matched], the three other bonuses,
    capped at 98. *)
Definition spec_compatibility (matched : bool) (requirement : cement_requirement)
  (quantity : value) (grade : option string) : Z :=
  Z.min (50 + (if matched then 25 else 0)
            + spec_capacity_bonus (capacity requirement) quantity
            + spec_quality_bonus grade
            + spec_urgency_bonus (urgency requirement)) 98.

(** Membership of the material type in the list when letter case is ignored
    on both sides. *)
Definition contains_ignoring_case (elems : list value) (wasteType : string) : bool :=
  existsb (fun e => match e with
                    | Str t => String.eqb (lower t) (lower wasteType)
                    | _ => false
                    end) elems.

(** *** The CO2 and pricing rules, in the words of the specification *)

Definition spec_coefficient (material : option string) : float :=
  match material with
  | None => 0.5
  | Some m =>
      if String.eqb m "fly_ash" then 0.8
      else if String.eqb m "steel_slag" then 0.7
      else if String.eqb m "silica_fume" then 1.2
      else if String.eqb m "bottom_ash" then 0.6
      else 0.5
  end%float.

(** The price table: base price and trend of a material, 2500 and 1.0 for
    an unknown or absent one. *)
Definition spec_basePrice (material : option string) : float :=
  match material with
  | None => 2500
  | Some m =>
      if String.eqb m "fly_ash" then 2800
      else if String.eqb m "steel_slag" then 2200
      else if String.eqb m "silica_fume" then 4500
      else if String.eqb m "bottom_ash" then 1800
      else 2500
  end%float.

Definition spec_trend (material : option string) : float :=
  match material with
  | None => 1.0
  | Some m =>
      if String.eqb m "fly_ash" then 1.05
      else if String.eqb m "steel_slag" then 1.08
      else if String.eqb m "silica_fume" then 1.12
      else if String.eqb m "bottom_ash" then 1.03
      else 1.0
  end%float.

(** The quality table: 1.0 for an unknown or absent grade. *)
Definition spec_qualityMultiplier (grade : option string) : float :=
  match grade with
  | None => 1.0
  | Some g =>
      if String.eqb g "premium" then 1.15
      else if String.eqb g "grade_a" || String.eqb g "grade_1" then 1.08
      else if String.eqb g "standard" then 1.0
      else if String.eqb g "below_standard" then 0.85
      else 1.0
  end%float.

Definition spec_volumeMultiplier (quantity : value) : float :=
  if greater_equal quantity (Num 1000) then 1.12
  else if greater_equal quantity (Num 500) then 1.08
  else if less_than quantity (Num 100) then 0.95
  else 1.0.

Definition spec_volumeLabel (quantity : value) : string :=
  if greater_equal quantity (Num 1000) then "Bulk Premium (+12%)"
  else if greater_equal quantity (Num 500) then "Volume Premium (+8%)"
  else if less_than quantity (Num 100) then "Small Batch (-5%)"
  else "Standard Rate".

Definition spec_finalPrice (base trend qualityMultiplier : float) (quantity : value) : float :=
  (base * trend * qualityMultiplier * spec_volumeMultiplier quantity)%float.

(** *** Binary rounding *)

(** The double [2 ^ j], for [j] in the normal range. *)
Definition pow2 (j : Z) : spec_float := S754_finite false 4503599627370496 (j - 52).

(** A finite double moved [j] exponents up, overflowing to infinity. *)
Definition rescale (j : Z) (x : spec_float) : spec_float :=
  match x with
  | S754_finite s m e =>
      if e + j <=? emax - prec then S754_finite s m (e + j) else S754_infinity s
  | _ => x
  end.

Definition seven_days : Z := 7 * 24 * 60 * 60 * 1000.

(** *** Sample documents *)

Definition sample_requirement : cement_requirement :=
  {| materials_needed := Array [Str "fly_ash"]; capacity := Num 600;
     urgency := Str "high"; price_offered := Num 3000 |}.

(** The same requirement with its material stored capitalised. *)
Definition capitalised_requirement : cement_requirement :=
  {| materials_needed := Array [Str "Fly_Ash"]; capacity := Num 600;
     urgency := Str "high"; price_offered := Num 3000 |}.

Definition empty_requirement : cement_requirement :=
  {| materials_needed := Scalar Undefined; capacity := Undefined;
     urgency := Undefined; price_offered := Undefined |}.

Definition sample_listing : waste_listing :=
  {| type := Str "fly_ash"; quantity := Num 500; quality_grade := Str "premium" |}.

(** A clock that has advanced by one millisecond after its first reading. *)
Definition ticking_clock (n : nat) : Z :=
  match n with
  | O => 1700000000000
  | S _ => 1700000000001
  end.

(** A store that holds the listing "w1" and the requirement "r1" and
    rejects the request for any other identifier; its writes go through, and
    its instance has no [FieldValue] property, so that reading
    [db.FieldValue.increment] throws. *)
Definition sample_listings (id : value) : outcome (option waste_listing) :=
  match id with
  | Str s => if String.eqb s "w1" then Resolved (Some sample_listing) else Rejected
  | _ => Rejected
  end.

Definition sample_requirements (id : value) : outcome (option cement_requirement) :=
  match id with
  | Str s => if String.eqb s "r1" then Resolved (Some sample_requirement) else Rejected
  | _ => Rejected
  end.

Definition sample_world : world :=
  {| listings := sample_listings;
     requirements := sample_requirements;
     matches := [];
     matches_add := Resolved tt;
     notifications_add := Resolved tt;
     FieldValue_increment := Throw TypeError;
     metrics_set := Resolved tt;
     clock := ticking_clock;
     reads := 0 |}.

Definition sample_body : request_body :=
  {| wasteId := Str "w1"; requirementId := Str "r1";
     userInfo := Undefined; contactPreference := Undefined |}.

(** The record that [createMatch] writes on the samples, and the world it
    leaves: the clock has been read a third time, for the notification. *)
Definition sample_match : match_record :=
  {| waste_id := Str "w1";
     requirement_id := Str "r1";
     waste_data := sample_listing;
     requirement_data := sample_requirement;
     match_score := 98;
     status := "pending_contact";
     user_info := None;
     contact_preference := Str "email";
     created_at := Date 1700000000000;
     expires_at := Date 1700604800001;
     estimated_co2_savings := Digits "400.0";
     estimated_revenue := 1620000 |}.

Definition sample_world_after : world :=
  {| listings := sample_listings;
     requirements := sample_requirements;
     matches := [sample_match];
     matches_add := Resolved tt;
     notifications_add := Resolved tt;
     FieldValue_increment := Throw TypeError;
     metrics_set := Resolved tt;
     clock := ticking_clock;
     reads := 3 |}.

(** ** Further functions of the file *)

(** *** Suggestions of the chat endpoint *)

(** [message.toLowerCase()], without optional chaining: only a string has
    the method. *)
Definition toLowerCase (v : value) : result string :=
  match v with
  | Str s => Return (lower s)
  | _ => Throw TypeError
  end.

Definition defaultSuggestions : list string :=
  ["Show available waste inventory"; "Find cement plant buyers";
   "Calculate environmental impact"; "Get current market prices";
   "Register my company"].

Definition generateSmartSuggestions (message context : value) : result (list string) :=
  msgLower <- toLowerCase message ;;
  let includes (word : string) := has_substring word msgLower in
  let suggestions : list string := [] in
  let suggestions :=
    if includes "price" || includes "cost" || includes "rate" then
      (suggestions ++ ["Get detailed price breakdown"; "Compare regional prices";
                       "Calculate bulk discounts"; "View market trends"])%list
    else suggestions in
  let suggestions :=
    if includes "co2" || includes "carbon" || includes "impact" || includes "environment" then
      (suggestions ++ ["Generate impact certificate"; "Calculate carbon credits";
                       "View sustainability metrics"; "Get compliance docs"])%list
    else suggestions in
  let suggestions :=
    if includes "match" || includes "find" || includes "buyer" || includes "sell" then
      (suggestions ++ ["Start smart matching"; "Set match preferences";
                       "View nearby buyers"; "Get quality assessment"])%list
    else suggestions in
  let suggestions :=
    if includes "register" || includes "signup" || includes "account" then
      (suggestions ++ ["Start registration"; "Learn premium features";
                       "Get pricing plans"; "Schedule demo"])%list
    else suggestions in
  Return (if (0 <? Z.of_nat (List.length suggestions)) then suggestions else defaultSuggestions).

(** The test of the chat endpoint before it answers 400:
    [!message || typeof message !== 'string']. *)
Definition message_rejected (message : value) : bool :=
  negb (ToBoolean message) ||
  negb (match message with Str _ => true | _ => false end).

(** The words the four tests look for. *)
Definition suggestion_keywords : list string :=
  ["price"; "cost"; "rate"; "co2"; "carbon"; "impact"; "environment";
   "match"; "find"; "buyer"; "sell"; "register"; "signup"; "account"].

(** *** Urgency label *)

Definition determineUrgency (match_ : cement_requirement) : string :=
  if strict_equal (urgency match_) (Str "very_high") then "Very High"
  else if strict_equal (urgency match_) (Str "high") then "High"
  else if strict_equal (urgency match_) (Str "medium") then "Medium"
  else "Standard".

(** The requirement with another urgency. *)
Definition with_urgency (u : value) (r : cement_requirement) : cement_requirement :=
  {| materials_needed := materials_needed r; capacity := capacity r;
     urgency := u; price_offered := price_offered r |}.

(** The requirement with another capacity. *)
Definition with_capacity (c : value) (r : cement_requirement) : cement_requirement :=
  {| materials_needed := materials_needed r; capacity := c;
     urgency := urgency r; price_offered := price_offered r |}.

(** *** Economic impact *)

Record economic_impact : Type := {
  material_revenue : value;
  carbon_credit_value : float;
  economic_total_value : float;
  roi_percentage : Z
}.

(** [calculateDynamicPricing] is called with three arguments: its
    [qualityGrade] is [undefined]. *)
Definition calculateEconomicImpact (wasteType quantity location : value)
  : result economic_impact :=
  priceAnalysis <- calculateDynamicPricing wasteType location quantity Undefined ;;
  co2Impact <- calculateCO2Impact wasteType quantity ;;
  Return {|
    material_revenue := total_value priceAnalysis;
    carbon_credit_value := carbon_credits co2Impact;
    economic_total_value :=
      (ToNumber (or_else (total_value priceAnalysis) (Num 0)) + carbon_credits co2Impact)%float;
    roi_percentage := 85
  |}.

(** *** Cumulative impact *)

(** The latest document of the impact collection, as far as it is read. *)
Record impact_document : Type := {
  total_co2_saved : value;
  total_revenue : value
}.

Record cumulative_impact : Type := {
  total_co2 : value;
  equivalent_forest : float;
  cumulative_total_revenue : value
}.

(** The argument is the outcome of the query: it throws, or yields the
    latest document if there is one.  [docs[0]?.data() || {}] reads every
    field of a missing document as [undefined]. *)
Definition getCumulativeImpact (query : result (option impact_document)) : cumulative_impact :=
  match query with
  | Return found =>
      let latestImpact :=
        match found with
        | Some d => d
        | None => {| total_co2_saved := Undefined; total_revenue := Undefined |}
        end in
      {| total_co2 := or_else (total_co2_saved latestImpact) (Num 12500);
         equivalent_forest :=
           Math_round (ToNumber (or_else (total_co2_saved latestImpact) (Num 12500)) * 1.2);
         cumulative_total_revenue := or_else (total_revenue latestImpact) (Num 2300000) |}
  | Throw _ =>
      {| total_co2 := Num 12500; equivalent_forest := 15000;
         cumulative_total_revenue := Num 2300000 |}
  end.

(** *** Vocabulary of the further statements *)

(** The factor [calculateDynamicRevenue] applies for the volume. *)
Definition revenue_volume_factor (quantity : value) : float :=
  if greater_equal quantity (Num 1000) then 1.12
  else if greater_equal quantity (Num 500) then 1.08
  else 1.0.

(** Two string arguments that differ at most by letter case (or are the
    same value). *)
Definition same_up_to_case (a b : value) : Prop :=
  match a, b with
  | Str s, Str t => lower s = lower t
  | _, _ => a = b
  end.

(** A location the table does not know: a string or absent, whose
    lower-cased text is neither a city of the table nor an inherited name. *)
Definition unknown_location (v : value) : bool :=
  string_or_absent v
  && match property cityCoordinates (lower_key v) with
     | None => true
     | Some _ => false
     end.

(** *** The figures of the CO2 endpoint *)

(** What [co2CalculatorTool] computes for its reply's [impact_data]: the CO2
    impact of [quantity || 100], the economic impact of [quantity] as it
    came, and the cumulative impact.  An exception becomes the 500 reply of
    the handler. *)
Definition impact_data (waste_type quantity location : value)
  (query : result (option impact_document))
  : result (co2_impact * economic_impact * cumulative_impact) :=
  co2Impact <- calculateCO2Impact waste_type (or_else quantity (Num 100)) ;;
  economicImpact <- calculateEconomicImpact waste_type quantity location ;;
  let cumulativeImpact := getCumulativeImpact query in
  Return (co2Impact, economicImpact, cumulativeImpact).

(** The price analysis of 600 tons of premium steel slag. *)
Definition sample_price_analysis : price_analysis :=
  {| base_price := 2200;
     quality_multiplier := Num 1.15;
     volume_tier := "Volume";
     volume_adjustment := "Volume Premium (+8%)";
     location_premium := "0% (Base location)";
     final_price := 2951;
     total_value := Num 1770595;
     quality_bonus := 330;
     bulk_premium := 8;
     express_premium := 150;
     carbon_credit_bonus := 15 |}.

(** *** The ranking of the matcher endpoint *)

Module Matcher.

(** A requirement found by the query, with the location the matcher reads
    from it besides the fields of [cement_requirement]. *)
Record potential_match : Type := {
  location : value;
  requirement : cement_requirement
}.

(** [{ ...match, distance, compatibility_score, ... }] *)
Record enhanced_match : Type := {
  source : potential_match;
  distance : float;
  compatibility_score : float;
  estimated_revenue : float;
  urgency_level : string;
  logistics_cost : float
}.

(** [(a, b) => b.compatibility_score - a.compatibility_score] *)
Definition comparefn (a b : enhanced_match) : float :=
  (compatibility_score b - compatibility_score a)%float.

(** [Array.prototype.sort] with that comparator.  The sort is stable and, for
    a comparator that orders its arguments consistently, its result does not
    depend on the engine's algorithm; it is given here by insertion: [x] goes
    behind [y] only when the comparator is positive on them (a NaN counts as
    zero). *)
Fixpoint insert (x : enhanced_match) (sorted : list enhanced_match) : list enhanced_match :=
  match sorted with
  | [] => [x]
  | y :: rest =>
      if (0 <? comparefn x y)%float then y :: insert x rest else x :: sorted
  end.

Definition sort (l : list enhanced_match) : list enhanced_match :=
  fold_right insert [] l.

(** [array.map(f)] for an [f] that may throw. *)
Fixpoint map_result {A B : Type} (f : A -> result B) (l : list A) : result (list B) :=
  match l with
  | [] => Return []
  | a :: rest =>
      b <- f a ;;
      bs <- map_result f rest ;;
      Return (b :: bs)
  end.

Section Ranking.

Variables Math_sin Math_cos Math_sqrt : float -> float.
Variable Math_atan2 : float -> float -> float.

(** The arrow function mapped over [potentialMatches]. *)
Definition enhance (waste_type quantity location_ quality_grade : value)
  (match_ : potential_match) : result enhanced_match :=
  distance <- calculateOptimalDistance Math_sin Math_cos Math_sqrt Math_atan2
                location_ (location match_) ;;
  compatibility <- calculateAdvancedCompatibility waste_type quantity quality_grade
                     (Some (requirement match_)) ;;
  estimatedRevenue <- calculateDynamicRevenue quantity (price_offered (requirement match_))
                        quality_grade ;;
  logistics <- estimateLogisticsCost (Num distance) quantity ;;
  Return {|
    source := match_;
    distance := distance;
    compatibility_score := compatibility;
    estimated_revenue := estimatedRevenue;
    urgency_level := determineUrgency (requirement match_);
    logistics_cost := logistics
  |}.

Definition enhancedMatches (waste_type quantity location_ quality_grade : value)
  (potentialMatches : list potential_match) : result (list enhanced_match) :=
  mapped <- map_result (enhance waste_type quantity location_ quality_grade)
              potentialMatches ;;
  Return (sort mapped).

End Ranking.

(** [enhancedMatches[0]?.compatibility_score || 0] *)
Definition top_match_score (enhancedMatches : list enhanced_match) : value :=
  match enhancedMatches with
  | [] => Num 0
  | first :: _ => or_else (Num (compatibility_score first)) (Num 0)
  end.

(** A score as the compatibility function gives it away from the inherited
    names: an integer from 55 to 98. *)
Definition regular_score (x : float) : Prop :=
  exists n : Z, 55 <= n <= 98 /\ x = float_of_Z n.

(** The order of the ranking: [a] may stand before [b]. *)
Definition not_below (a b : enhanced_match) : Prop :=
  (compatibility_score b <=? compatibility_score a)%float = true.

(** What the ranking needs of a potential match: a location that is a
    string or absent and a materials list that is an array, a string or
    absent. *)
Definition well_formed (m : potential_match) : Prop :=
  string_or_absent (location m) = true
  /\ list_or_absent (materials_needed (requirement m)) = true.

Definition sample_matches : list potential_match :=
  [ {| location := Str "Pune"; requirement := capitalised_requirement |};
    {| location := Str "Delhi"; requirement := sample_requirement |};
    {| location := Undefined; requirement := empty_requirement |} ].

End Matcher.

(** * Properties *)

(** ** Exact products in binary64 *)

Module Binary64.

Lemma iter_pos_iter {A : Type} (f : A -> A) (p : positive) (x : A) :
  iter_pos f p x = Pos.iter f x p.
Proof.
  revert x. induction p as [p IH | p IH |]; intros x; simpl.
  - rewrite !IH. rewrite <- !Pos.iter_swap. reflexivity.
  - rewrite !IH. reflexivity.
  - reflexivity.
Qed.

Lemma digits2_pos_shift (m k : positive) :
  Zpos (digits2_pos (Pos.iter xO m k)) = Zpos (digits2_pos m) + Zpos k.
Proof.
  induction k using Pos.peano_ind.
  - simpl. lia.
  - rewrite Pos.iter_succ. simpl digits2_pos. rewrite Pos2Z.inj_succ, IHk. lia.
Qed.

Lemma shr_1_shift (k m : positive) :
  iter_pos shr_1 k (Build_shr_record (Zpos (Pos.iter xO m k)) false false)
  = Build_shr_record (Zpos m) false false.
Proof.
  rewrite iter_pos_iter.
  induction k using Pos.peano_ind.
  - reflexivity.
  - rewrite Pos.iter_succ_r, Pos.iter_succ. simpl shr_1. exact IHk.
Qed.

(** A mantissa ending in [k] zero bits, rounded where dropping them is
    canonical, loses exactly those bits. *)
Lemma binary_round_aux_shift (s : bool) (m k : positive) (e : Z) :
  canonical_mantissa prec emax m (e + Zpos k) = true ->
  binary_round_aux prec emax s (Zpos (Pos.iter xO m k)) e loc_Exact
  = rescale (Zpos k) (S754_finite s m e).
Proof.
  unfold canonical_mantissa. intros Hc.
  apply Z.eqb_eq in Hc.
  unfold binary_round_aux, shr_fexp.
  unfold Zdigits2 at 1. rewrite digits2_pos_shift.
  replace (Z.pos (digits2_pos m) + Z.pos k + e)
    with (Z.pos (digits2_pos m) + (e + Z.pos k)) by lia.
  rewrite Hc.
  replace (e + Z.pos k - e) with (Z.pos k) by lia.
  unfold shr at 1. cbn [shr_record_of_loc]. rewrite shr_1_shift.
  cbn [shr_m loc_of_shr_record round_nearest_even Zdigits2].
  rewrite Hc. rewrite Z.sub_diag. cbn [shr shr_record_of_loc shr_m].
  reflexivity.
Qed.

Lemma mul_pow2_r (s : bool) (m : positive) (e j : Z) :
  0 <= j -> canonical_mantissa prec emax m (e + j) = true ->
  SFmul prec emax (S754_finite s m e) (pow2 j) = rescale j (S754_finite s m e).
Proof.
  intros Hj H. unfold SFmul, pow2.
  replace (m * 4503599627370496)%positive with (Pos.iter xO m 52)
    by (rewrite Pos.mul_comm; reflexivity).
  rewrite xorb_false_r.
  replace (e + (j - 52)) with (e + j - 52) by lia.
  rewrite binary_round_aux_shift
    by (replace (e + j - 52 + 52) with (e + j) by lia; auto).
  unfold rescale. replace (e + j - 52 + 52) with (e + j) by lia. reflexivity.
Qed.

Lemma mul_pow2_l (s : bool) (m : positive) (e j : Z) :
  0 <= j -> canonical_mantissa prec emax m (e + j) = true ->
  SFmul prec emax (pow2 j) (S754_finite s m e) = rescale j (S754_finite s m e).
Proof.
  intros Hj H. unfold SFmul, pow2.
  change (4503599627370496 * m)%positive with (Pos.iter xO m 52).
  rewrite xorb_false_l.
  replace (j - 52 + e) with (e + j - 52) by lia.
  rewrite binary_round_aux_shift
    by (replace (e + j - 52 + 52) with (e + j) by lia; auto).
  unfold rescale. replace (e + j - 52 + 52) with (e + j) by lia. reflexivity.
Qed.

(** [x * 1.0] is [x], for every double. *)
Lemma mul_1_r (x : float) : (x * 1)%float = x.
Proof.
  apply Prim2SF_inj. rewrite mul_spec.
  change (Prim2SF 1) with (pow2 0).
  pose proof (Prim2SF_valid x) as V.
  destruct (Prim2SF x) as [s | s | | s m e]; try reflexivity.
  - simpl. now rewrite xorb_false_r.
  - simpl. now rewrite xorb_false_r.
  - unfold SF64mul. apply andb_prop in V. destruct V as [Vc Vb].
    rewrite mul_pow2_r; rewrite ?Z.add_0_r; auto; try lia.
    unfold rescale. now rewrite Z.add_0_r, Vb.
Qed.

Lemma fexp_unclamped (d e : Z) :
  0 <= d -> emin + prec <= e -> fexp prec emax (d + e) = d + e - prec.
Proof. unfold fexp. intros. apply Z.max_l. unfold SpecFloat.emin in *. lia. Qed.

Lemma Zdigits2_nonneg (m : Z) : 0 <= Zdigits2 m.
Proof. destruct m; simpl; lia. Qed.

Lemma shr_fexp_succ (m e : Z) (l : location) :
  emin + prec <= e ->
  shr_fexp prec emax m (e + 1) l
  = (fst (shr_fexp prec emax m e l), snd (shr_fexp prec emax m e l) + 1)
  /\ e <= snd (shr_fexp prec emax m e l).
Proof.
  intros He. unfold shr_fexp. pose proof (Zdigits2_nonneg m) as D.
  replace (Zdigits2 m + (e + 1)) with (Zdigits2 m + 1 + e) by lia.
  rewrite !fexp_unclamped by lia.
  replace (Zdigits2 m + 1 + e - prec - (e + 1)) with (Zdigits2 m - prec) by lia.
  replace (Zdigits2 m + e - prec - e) with (Zdigits2 m - prec) by lia.
  destruct (Zdigits2 m - prec); simpl; split; try reflexivity; try lia.
  f_equal. lia.
Qed.

(** Away from the subnormal range, rounding one exponent higher gives the
    same mantissa one exponent higher. *)
Lemma binary_round_aux_succ (s : bool) (m e : Z) (l : location) :
  emin + prec <= e ->
  binary_round_aux prec emax s m (e + 1) l = rescale 1 (binary_round_aux prec emax s m e l)
  /\ match binary_round_aux prec emax s m e l with
     | S754_finite _ _ e' => e <= e'
     | _ => True
     end.
Proof.
  intros He. unfold binary_round_aux.
  destruct (shr_fexp_succ m e l He) as [E1 L1]. rewrite E1.
  destruct (shr_fexp prec emax m e l) as [mrs' e']. cbn [fst snd] in *.
  set (m1 := round_nearest_even (shr_m mrs') (loc_of_shr_record mrs')).
  assert (He' : emin + prec <= e') by lia.
  destruct (shr_fexp_succ m1 e' loc_Exact He') as [E2 L2]. rewrite E2.
  destruct (shr_fexp prec emax m1 e' loc_Exact) as [mrs'' e'']. cbn [fst snd] in *.
  destruct (shr_m mrs''); cbn [rescale]; try (split; auto; fail).
  destruct (e'' <=? emax - prec) eqn:B.
  - cbn [rescale]. split; [reflexivity | lia].
  - cbn [rescale]. split; auto.
    apply Z.leb_gt in B. replace (e'' + 1 <=? emax - prec) with false; auto.
    symmetry. apply Z.leb_gt. lia.
Qed.

Lemma canonical_succ (m : positive) (e : Z) :
  emin < e -> canonical_mantissa prec emax m e = true ->
  canonical_mantissa prec emax m (e + 1) = true.
Proof.
  unfold canonical_mantissa, fexp, SpecFloat.emin. intros He H.
  apply Z.eqb_eq in H. apply Z.eqb_eq. lia.
Qed.

Lemma mul_2_valid (x : spec_float) :
  valid_binary x = true ->
  match x with S754_finite _ _ e => emin < e | _ => True end ->
  SFmul prec emax (pow2 1) x = rescale 1 x.
Proof.
  destruct x as [s | s | | s m e]; intros V He; try reflexivity.
  apply andb_prop in V. destruct V as [Vc Vb].
  apply mul_pow2_l; [lia | now apply canonical_succ].
Qed.

(** Doubling commutes with a rounded product, away from the subnormal
    range. *)
Lemma mul_2_assoc (x c : float) (sx sc : bool) (mx mc : positive) (ex ec : Z) :
  Prim2SF x = S754_finite sx mx ex ->
  Prim2SF c = S754_finite sc mc ec ->
  emin < ex -> ex + 1 <= emax - prec -> emin + prec <= ex + ec ->
  (2 * x * c = 2 * (x * c))%float.
Proof.
  intros Hx Hc Lx Ux Lc.
  apply Prim2SF_inj.
  pose proof (Prim2SF_valid x) as Vx. pose proof (Prim2SF_valid (x * c)%float) as Vy.
  rewrite (mul_spec (2 * x) c), (mul_spec 2 x), (mul_spec 2 (x * c)).
  change (Prim2SF 2) with (pow2 1).
  unfold SF64mul. rewrite mul_2_valid; [ | exact Vx | rewrite Hx; exact Lx ].
  rewrite mul_spec in Vy |- *. rewrite Hx, Hc in *.
  cbn [rescale]. replace (ex + 1 <=? emax - prec) with true by (symmetry; apply Z.leb_le; lia).
  unfold SF64mul in *. cbn [SFmul] in *.
  replace (ex + 1 + ec) with (ex + ec + 1) by lia.
  destruct (binary_round_aux_succ (xorb sx sc) (Z.pos (mx * mc)) (ex + ec) loc_Exact Lc) as [E L].
  rewrite E. symmetry. apply mul_2_valid; auto.
  destruct (binary_round_aux prec emax (xorb sx sc) (Z.pos (mx * mc)) (ex + ec) loc_Exact); auto.
  unfold SpecFloat.emin, prec, emax in *. lia.
Qed.

(** A double between two positive finite bounds is positive and finite,
    with its exponent between theirs. *)
Lemma between_finite (lo hi x : float) (ml mh : positive) (el eh : Z) :
  Prim2SF lo = S754_finite false ml el ->
  Prim2SF hi = S754_finite false mh eh ->
  (lo <=? x)%float = true -> (x <=? hi)%float = true ->
  exists m e, Prim2SF x = S754_finite false m e /\ el <= e <= eh.
Proof.
  intros Hl Hh. rewrite !leb_spec, Hl, Hh. unfold SFleb, SFcompare.
  destruct (Prim2SF x) as [s | s | | s m e]; try discriminate.
  - destruct s; discriminate.
  - destruct s; try discriminate.
    intros A B. exists m, e. split; auto.
    destruct (Z.compare_spec el e), (Z.compare_spec e eh); try discriminate; lia.
Qed.

Lemma shr_1_nonneg (r : shr_record) : 0 <= shr_m r -> 0 <= shr_m (shr_1 r).
Proof.
  destruct r as [m r s]. destruct m as [ | p | p ]; simpl; try lia.
  - destruct p; simpl; lia.
Qed.

Lemma iter_shr_1_nonneg (p : positive) (r : shr_record) :
  0 <= shr_m r -> 0 <= shr_m (iter_pos shr_1 p r).
Proof.
  revert r. induction p as [p IH | p IH |]; intros r H; simpl.
  - apply IH, IH, shr_1_nonneg, H.
  - apply IH, IH, H.
  - apply shr_1_nonneg, H.
Qed.

Lemma shr_fexp_nonneg (m e : Z) (l : location) :
  0 <= m -> 0 <= shr_m (fst (shr_fexp prec emax m e l)).
Proof.
  intros H. unfold shr_fexp, shr.
  assert (0 <= shr_m (shr_record_of_loc m l)) by (destruct l as [ | [ | | ]]; exact H).
  destruct (fexp prec emax (Zdigits2 m + e) - e); cbn [fst]; auto.
  now apply iter_shr_1_nonneg.
Qed.

Lemma round_nearest_even_nonneg (m : Z) (l : location) :
  0 <= m -> 0 <= round_nearest_even m l.
Proof.
  intros H. destruct l as [ | [ | | ]]; simpl; try lia.
  destruct (Z.even m); lia.
Qed.

(** Rounding a non-negative mantissa never yields NaN. *)
Lemma binary_round_aux_not_nan (s : bool) (m e : Z) (l : location) :
  0 <= m -> binary_round_aux prec emax s m e l <> S754_nan.
Proof.
  intros H. unfold binary_round_aux.
  pose proof (shr_fexp_nonneg m e l H) as H1.
  destruct (shr_fexp prec emax m e l) as [mrs' e']. cbn [fst] in H1.
  pose proof (shr_fexp_nonneg _ e' loc_Exact
                (round_nearest_even_nonneg _ (loc_of_shr_record mrs') H1)) as H2.
  destruct (shr_fexp prec emax _ e' loc_Exact) as [mrs'' e'']. cbn [fst] in H2.
  destruct (shr_m mrs'') as [ | p | p ]; try discriminate.
  - destruct (e'' <=? emax - prec); discriminate.
  - lia.
Qed.

Lemma eqb_refl_not_nan (x : float) : Prim2SF x <> S754_nan -> (x =? x)%float = true.
Proof.
  rewrite eqb_spec. unfold SFeqb, SFcompare.
  destruct (Prim2SF x) as [s | s | | s m e]; intros H; try reflexivity.
  - destruct s; reflexivity.
  - contradiction.
  - rewrite Z.compare_refl, Pos.compare_cont_refl. destruct s; reflexivity.
Qed.

Lemma mul_finite_not_nan (x c : float) (sx sc : bool) (mx mc : positive) (ex ec : Z) :
  Prim2SF x = S754_finite sx mx ex ->
  Prim2SF c = S754_finite sc mc ec ->
  Prim2SF (x * c)%float <> S754_nan.
Proof.
  intros Hx Hc. rewrite mul_spec, Hx, Hc. apply binary_round_aux_not_nan. lia.
Qed.

Lemma double_not_nan (y : float) : Prim2SF y <> S754_nan -> Prim2SF (2 * y)%float <> S754_nan.
Proof.
  rewrite mul_spec. change (Prim2SF 2) with (pow2 1).
  destruct (Prim2SF y) as [s | s | | s m e]; intros H; try discriminate.
  - contradiction.
  - apply binary_round_aux_not_nan. lia.
Qed.

End Binary64.

(** ** The runtime model on known values *)

Section Runtime.

#[local] Open Scope float_scope.

(** [Math.round] sends ties towards +Infinity and keeps the sign of zero. *)
Example Math_round_ties :
  map Math_round [0.5; 1.5; 2.5; -0.5; -1.5; -2.5; 0.49999999999999994; 2732.4]
  = [1; 2; 3; -0; -1; -2; 0; 2732].
Proof. vm_compute. reflexivity. Qed.

(** [toFixed(1)] rounds the exact binary value: 0.85 is stored just below
    0.85, 0.25 is a tie and goes up. *)
Example toFixed1_values :
  map toFixed1 [400; 0.85; 0.25; 1.68; -0.04; 123.45; nan]
  = [Digits "400.0"; Digits "0.8"; Digits "0.3"; Digits "1.7"; Digits "-0.0";
     Digits "123.5"; Digits "NaN"].
Proof. vm_compute. reflexivity. Qed.

Example StringToNumber_values :
  map StringToNumber ["500"; " 12.5 "; "1e3"; ".5"; "0x1F"; ""; "12px"; "-Infinity";
                      "50function Object() { [native code] }"; "50[object Object]"]
  = [500; 12.5; 1000; 0.5; 31; 0; nan; neg_infinity; nan; nan].
Proof. vm_compute. reflexivity. Qed.

(** Only the lower-case names of [Object.prototype] can come out of
    [toLowerCase]. *)
Example inherited_names :
  map (fun k => property qualityScores (Some k)) ["premium"; "constructor"; "__proto__"; "tostring"; "gold"]
  = [Some (Own 15%Z); Some (Inherited ObjectConstructor); Some (Inherited ObjectPrototype);
     None; None].
Proof. vm_compute. reflexivity. Qed.

(** The specification's end-to-end scenario for the compatibility score. *)
Example compatibility_scenario :
  calculateAdvancedCompatibility (Str "fly_ash") (Num 500) (Str "premium")
    (Some sample_requirement) = Return 98.
Proof. vm_compute. reflexivity. Qed.

End Runtime.

(** ** Compatibility score *)

Section Compatibility.

Lemma toLowerCase_optional_typed (v : value) :
  string_or_absent v = true -> toLowerCase_optional v = Return (lower_key v).
Proof. destruct v; simpl; intros H; try discriminate; reflexivity. Qed.

Lemma material_key_typed (v : value) :
  string_or_absent v = true -> material_key v = Return (material_name v).
Proof. destruct v; simpl; intros H; try discriminate; reflexivity. Qed.

(** On a key that is not inherited, the table read agrees with the
    specification's quality table. *)
Lemma quality_points_plain (key : option string) :
  plain_key key = true -> quality_points key = Own (spec_quality_bonus key).
Proof.
  unfold plain_key, quality_points, property.
  destruct key as [g |]; [ | reflexivity ].
  cbn [property_name spec_quality_bonus qualityScores own_property].
  rewrite (String.eqb_sym g "premium"), (String.eqb_sym g "grade_a"),
    (String.eqb_sym g "grade_1"), (String.eqb_sym g "standard").
  destruct ("premium" =? g)%string; [ reflexivity | ].
  destruct ("grade_a" =? g)%string; [ reflexivity | ].
  destruct ("grade_1" =? g)%string; [ reflexivity | ].
  destruct ("standard" =? g)%string; [ reflexivity | ].
  destruct (Object_prototype g); [ discriminate | reflexivity ].
Qed.

Lemma includes_optional_typed (materials : field) (wasteType : value) :
  list_or_absent materials = true -> string_or_absent wasteType = true ->
  exists matched, includes_optional materials wasteType = Return matched.
Proof.
  intros Hm Hw. unfold includes_optional.
  destruct materials as [[ | | | | | ] | elems]; try discriminate;
    rewrite ?(toLowerCase_optional_typed _ Hw); cbn [bind]; eexists; reflexivity.
Qed.

(** The score of a well-typed call on a grade that is not an inherited
    name is the specification's sum, capped. *)
(** Case analysis on every test of the specification's sum. *)
Ltac bonus_cases :=
  unfold spec_compatibility, spec_capacity_bonus, spec_urgency_bonus, spec_quality_bonus;
  repeat match goal with
    | |- context [if ?c then _ else _] => destruct c
    | |- context [match ?o with Some _ => _ | None => _ end] => destruct o
    end.

Lemma compatibility_formula (wasteType quantity qualityGrade : value)
  (requirement : cement_requirement) (matched : bool) :
  includes_optional (materials_needed requirement) wasteType = Return matched ->
  string_or_absent qualityGrade = true ->
  plain_key (lower_key qualityGrade) = true ->
  calculateAdvancedCompatibility wasteType quantity qualityGrade (Some requirement)
  = Return (float_of_Z (spec_compatibility matched requirement quantity (lower_key qualityGrade))).
Proof.
  intros Hi Hg Hp. unfold calculateAdvancedCompatibility.
  rewrite Hi, (toLowerCase_optional_typed _ Hg). cbn [bind].
  rewrite (quality_points_plain _ Hp).
  bonus_cases; vm_compute; reflexivity.
Qed.

Lemma spec_compatibility_range (matched : bool) (requirement : cement_requirement)
  (quantity : value) (grade : option string) :
  55 <= spec_compatibility matched requirement quantity grade <= 98.
Proof.
  bonus_cases; lia.
Qed.

(** The material bonus always shows in the result: the other rules add at
    most 38 to the base 50, so the cap cannot hide it. *)
Lemma material_bonus_visible (requirement : cement_requirement) (quantity : value)
  (grade : option string) :
  spec_compatibility false requirement quantity grade
  < spec_compatibility true requirement quantity grade.
Proof.
  bonus_cases; lia.
Qed.

(** Away from the inherited names, a well-typed call returns an integer
    between 55 and 98. *)
Lemma compatibility_range (wasteType quantity qualityGrade : value)
  (requirement : cement_requirement) :
  list_or_absent (materials_needed requirement) = true ->
  string_or_absent wasteType = true ->
  string_or_absent qualityGrade = true ->
  plain_key (lower_key qualityGrade) = true ->
  exists n : Z,
    calculateAdvancedCompatibility wasteType quantity qualityGrade (Some requirement)
    = Return (float_of_Z n) /\ 55 <= n <= 98.
Proof.
  intros Hm Hw Hg Hp.
  destruct (includes_optional_typed _ _ Hm Hw) as [matched Hi].
  eexists. split.
  - apply (compatibility_formula _ _ _ _ _ Hi Hg Hp).
  - apply spec_compatibility_range.
Qed.

End Compatibility.

Lemma small_integer_not_nan (n : Z) :
  0 <= n <= 200 -> is_nan (float_of_Z n) = false.
Proof.
  intros H.
  assert (A : forallb (fun k => negb (is_nan (float_of_Z (Z.of_nat k)))) (seq 0 201) = true)
    by (vm_compute; reflexivity).
  rewrite forallb_forall in A.
  specialize (A (Z.to_nat n)). rewrite Z2Nat.id in A by lia.
  apply negb_true_iff, A, in_seq. lia.
Qed.

(** C1. The score is not always an integer in [0, 98]: a quality grade that
    names a property every object inherits ("constructor") is read from the
    table as the [Object] function, [score +=] then concatenates text, and
    [Math.min] of that text and 98 is NaN. *)
Theorem compatibility_constructor_grade_is_nan :
  calculateAdvancedCompatibility (Str "fly_ash") (Num 500) (Str "constructor")
    (Some sample_requirement) = Return nan
  /\ ~ (exists n : Z, 0 <= n <= 98 /\ nan = float_of_Z n).
Proof.
  split; [ vm_compute; reflexivity | ].
  intros [n [Hn E]].
  pose proof (small_integer_not_nan n ltac:(lia)) as N.
  rewrite <- E in N. discriminate N.
Qed.

(** C10. The floor of 55 does not hold on every input either: with every
    other argument absent, the grade "__proto__" is read as
    [Object.prototype] itself and the score is NaN, which is not at least
    55. *)
Theorem compatibility_proto_grade_is_not_above_55 :
  calculateAdvancedCompatibility Undefined Undefined (Str "__proto__")
    (Some empty_requirement) = Return nan
  /\ (55 <=? nan)%float = false.
Proof. split; vm_compute; reflexivity. Qed.

(** C2 (as stated) fails: the list holds the material under another letter
    case, a case-insensitive comparison finds it, and the bonus is not
    given: the score is 88, against 98 when the entry is stored in lower
    case. *)
Lemma material_bonus_is_case_sensitive_on_entries :
  contains_ignoring_case [Str "Fly_Ash"] "fly_ash" = true
  /\ calculateAdvancedCompatibility (Str "fly_ash") (Num 500) (Str "premium")
       (Some capitalised_requirement) = Return 88%float
  /\ calculateAdvancedCompatibility (Str "fly_ash") (Num 500) (Str "premium")
       (Some sample_requirement) = Return 98%float.
Proof. repeat split; vm_compute; reflexivity. Qed.

(** C2 (amended). When the materials list is an array, the 25-point bonus is
    given exactly when the list has an element equal to the lower-cased
    material type: only the argument is lower-cased, the entries are compared
    as stored.  (Material type and grade are strings or absent, and the
    lower-cased grade is not a name inherited from [Object.prototype].) *)
Theorem material_bonus_iff_lowercased_member
  (wasteType quantity qualityGrade : value) (requirement : cement_requirement)
  (elems : list value) :
  materials_needed requirement = Array elems ->
  string_or_absent wasteType = true ->
  string_or_absent qualityGrade = true ->
  plain_key (lower_key qualityGrade) = true ->
  let listed := existsb (SameValueZero (of_optional (lower_key wasteType))) elems in
  calculateAdvancedCompatibility wasteType quantity qualityGrade (Some requirement)
  = Return (float_of_Z
              (spec_compatibility listed requirement quantity (lower_key qualityGrade)))
  /\ spec_compatibility false requirement quantity (lower_key qualityGrade)
     < spec_compatibility true requirement quantity (lower_key qualityGrade).
Proof.
  intros Hm Hw Hg Hp listed. split.
  - apply compatibility_formula; auto.
    unfold includes_optional. rewrite Hm, (toLowerCase_optional_typed _ Hw). reflexivity.
  - apply material_bonus_visible.
Qed.

Lemma material_bonus_iff_lowercased_member_witness :
  calculateAdvancedCompatibility (Str "Fly_Ash") (Num 500) (Str "premium")
    (Some sample_requirement)
  = Return (float_of_Z (spec_compatibility true sample_requirement (Num 500) (Some "premium")))
  /\ spec_compatibility false sample_requirement (Num 500) (Some "premium")
     < spec_compatibility true sample_requirement (Num 500) (Some "premium").
Proof.
  exact (material_bonus_iff_lowercased_member (Str "Fly_Ash") (Num 500) (Str "premium")
           sample_requirement [Str "fly_ash"] eq_refl eq_refl eq_refl eq_refl).
Defined.

(** ** CO2 impact *)

Section CO2.

#[local] Open Scope float_scope.

(** On a key that is not inherited, the table read agrees with the
    specification's coefficient table. *)
Lemma coefficient_for_plain (key : option string) :
  plain_key key = true ->
  exists c, coefficient_for key = Own c /\ co2_per_ton c = spec_coefficient key.
Proof.
  unfold plain_key, coefficient_for, property.
  destruct key as [m |]; [ | intros _; eexists; split; reflexivity ].
  cbn [property_name spec_coefficient coefficients own_property].
  rewrite (String.eqb_sym m "fly_ash"), (String.eqb_sym m "steel_slag"),
    (String.eqb_sym m "silica_fume"), (String.eqb_sym m "bottom_ash").
  destruct ("fly_ash" =? m)%string; [ intros _; eexists; split; reflexivity | ].
  destruct ("steel_slag" =? m)%string; [ intros _; eexists; split; reflexivity | ].
  destruct ("silica_fume" =? m)%string; [ intros _; eexists; split; reflexivity | ].
  destruct ("bottom_ash" =? m)%string; [ intros _; eexists; split; reflexivity | ].
  destruct (Object_prototype m); [ discriminate | intros _; eexists; split; reflexivity ].
Qed.

Lemma spec_coefficient_finite (key : option string) :
  exists (m : positive) (e : Z),
    Prim2SF (spec_coefficient key) = S754_finite false m e /\ (-53 <= e <= -52)%Z.
Proof.
  unfold spec_coefficient. destruct key as [k |].
  - destruct (k =? "fly_ash")%string; [ | destruct (k =? "steel_slag")%string; [ |
      destruct (k =? "silica_fume")%string; [ | destruct (k =? "bottom_ash")%string ] ] ];
      vm_compute; do 2 eexists; (split; [ reflexivity | split; discriminate ]).
  - vm_compute; do 2 eexists; (split; [ reflexivity | split; discriminate ]).
Qed.

(** C3 (as stated) fails: the fields are not the products themselves.  For
    one ton of fly ash the energy offset 0.8 * 2.1 = 1.68 is reported as the
    text "1.7". *)
Lemma co2_fields_are_rounded_text :
  exists r, calculateCO2Impact (Str "fly_ash") (Num 1) = Return r
    /\ energy_offset r = Digits "1.7"
    /\ 1 * 0.8 * 2.1 = 1.6800000000000002
    /\ (numtext_value (energy_offset r) =? 1 * 0.8 * 2.1) = false.
Proof. eexists. repeat split; vm_compute; reflexivity. Qed.

(** C3 (amended). The material type, lower-cased and with its first space
    turned into an underscore, selects the per-ton coefficient (fly_ash 0.8,
    steel_slag 0.7, silica_fume 1.2, bottom_ash 0.6, otherwise 0.5); with
    co2Saved = quantity * coefficient, the call returns co2_saved, cement_offset,
    water_saved, energy_offset and air_quality_improvement as the one-decimal
    texts ([toFixed(1)]) of co2Saved, quantity * 0.85, quantity * 2.5,
    co2Saved * 2.1 and quantity * 0.3, and trees_equivalent and carbon_credits
    as round(co2Saved * 1.2) and round(co2Saved * 1200).  For fly_ash and 500
    they are "400.0", 480 and 480000.  (The material type is a string or
    absent, and its key is not a name inherited from [Object.prototype].) *)
Theorem co2_impact_fields :
  (forall wasteType quantity : value,
     string_or_absent wasteType = true ->
     plain_key (material_name wasteType) = true ->
     let q := ToNumber quantity in
     let co2 := q * spec_coefficient (material_name wasteType) in
     exists r, calculateCO2Impact wasteType quantity = Return r
       /\ co2_saved r = toFixed1 co2
       /\ trees_equivalent r = Math_round (co2 * 1.2)
       /\ carbon_credits r = Math_round (co2 * 1200)
       /\ cement_offset r = toFixed1 (q * 0.85)
       /\ water_saved r = toFixed1 (q * 2.5)
       /\ energy_offset r = toFixed1 (co2 * 2.1)
       /\ air_quality_improvement r = toFixed1 (q * 0.3))
  /\ (exists r, calculateCO2Impact (Str "fly_ash") (Num 500) = Return r
        /\ co2_saved r = Digits "400.0"
        /\ trees_equivalent r = 480
        /\ carbon_credits r = 480000).
Proof.
  split.
  - intros wasteType quantity Hw Hp q co2.
    unfold calculateCO2Impact. rewrite (material_key_typed _ Hw). cbn [bind].
    destruct (coefficient_for_plain _ Hp) as [c [Hc Hv]].
    rewrite Hc. unfold co2Saved. cbn [ToNumber ToPrimitive]. rewrite Hv.
    eexists. split; [ reflexivity | ]. cbn. repeat split; reflexivity.
  - eexists. repeat split; vm_compute; reflexivity.
Qed.

Lemma co2_impact_fields_witness :
  exists r, calculateCO2Impact (Str "Steel Slag") (Num 120) = Return r
    /\ co2_saved r = toFixed1 (120 * 0.7)
    /\ trees_equivalent r = Math_round (120 * 0.7 * 1.2)
    /\ carbon_credits r = Math_round (120 * 0.7 * 1200)
    /\ cement_offset r = toFixed1 (120 * 0.85)
    /\ water_saved r = toFixed1 (120 * 2.5)
    /\ energy_offset r = toFixed1 (120 * 0.7 * 2.1)
    /\ air_quality_improvement r = toFixed1 (120 * 0.3).
Proof.
  exact (proj1 co2_impact_fields (Str "Steel Slag") (Num 120) eq_refl eq_refl).
Defined.

(** C4 (as stated) fails: the reported figure is rounded to one decimal.
    For fly ash, 10.3 tons report "8.2" and 20.6 tons report "16.5", which is
    not twice 8.2. *)
Lemma co2_saved_field_is_not_linear :
  exists r1 r2,
    calculateCO2Impact (Str "fly_ash") (Num 10.3) = Return r1
    /\ calculateCO2Impact (Str "fly_ash") (Num (2 * 10.3)) = Return r2
    /\ co2_saved r1 = Digits "8.2"
    /\ co2_saved r2 = Digits "16.5"
    /\ (numtext_value (co2_saved r2) =? 2 * numtext_value (co2_saved r1)) = false.
Proof. do 2 eexists. repeat split; vm_compute; reflexivity. Qed.

(** C4 (amended). What doubles with the quantity is the saving before it is
    formatted: for a quantity between 1e-270 and 1e300, the product
    (2 * q) * coefficient is the same double as 2 * (q * coefficient), and
    [==] holds between them; the co2_saved reported for 2 * q is the
    one-decimal text of that doubled saving.  (The material type is a string
    or absent, and its key is not a name inherited from [Object.prototype].) *)
Theorem co2_saved_doubles_before_formatting (wasteType : value) (q : float) :
  string_or_absent wasteType = true ->
  plain_key (material_name wasteType) = true ->
  (1e-270 <=? q) = true -> (q <=? 1e300) = true ->
  let c := coefficient_for (material_name wasteType) in
  co2Saved c (Num (2 * q)) = 2 * co2Saved c (Num q)
  /\ (co2Saved c (Num (2 * q)) =? 2 * co2Saved c (Num q)) = true
  /\ exists r1 r2,
       calculateCO2Impact wasteType (Num q) = Return r1
       /\ calculateCO2Impact wasteType (Num (2 * q)) = Return r2
       /\ co2_saved r1 = toFixed1 (co2Saved c (Num q))
       /\ co2_saved r2 = toFixed1 (2 * co2Saved c (Num q)).
Proof.
  intros Hw Hp Hlo Hhi c.
  destruct (coefficient_for_plain _ Hp) as [cf [Hc Hv]].
  destruct (spec_coefficient_finite (material_name wasteType)) as [mc [ec [Hf Hec]]].
  assert (Hl : Prim2SF 1e-270 = S754_finite false 4758454107128906 (-949))
    by (vm_compute; reflexivity).
  assert (Hh : Prim2SF 1e300 = S754_finite false 6724873095247260 944)
    by (vm_compute; reflexivity).
  destruct (Binary64.between_finite _ _ q _ _ _ _ Hl Hh Hlo Hhi) as [mq [eq [Hq Heq]]].
  assert (E : co2Saved c (Num (2 * q)) = 2 * co2Saved c (Num q)).
  { unfold c, co2Saved. rewrite Hc. cbn [ToNumber ToPrimitive]. rewrite Hv.
    apply (Binary64.mul_2_assoc _ _ _ _ _ _ _ _ Hq Hf);
      unfold SpecFloat.emin, emax, prec; lia. }
  split; [ exact E | split ].
  - rewrite E. apply Binary64.eqb_refl_not_nan, Binary64.double_not_nan.
    unfold c, co2Saved. rewrite Hc. cbn [ToNumber ToPrimitive]. rewrite Hv.
    apply (Binary64.mul_finite_not_nan _ _ _ _ _ _ _ _ Hq Hf).
  - unfold calculateCO2Impact. rewrite (material_key_typed _ Hw). cbn [bind].
    do 2 eexists. split; [ reflexivity | split; [ reflexivity | ] ].
    cbn [co2_saved]. fold c. rewrite E. split; reflexivity.
Qed.

Lemma co2_saved_doubles_before_formatting_witness :
  let c := coefficient_for (Some "fly_ash") in
  co2Saved c (Num (2 * 10.3)) = 2 * co2Saved c (Num 10.3)
  /\ (co2Saved c (Num (2 * 10.3)) =? 2 * co2Saved c (Num 10.3)) = true
  /\ exists r1 r2,
       calculateCO2Impact (Str "fly_ash") (Num 10.3) = Return r1
       /\ calculateCO2Impact (Str "fly_ash") (Num (2 * 10.3)) = Return r2
       /\ co2_saved r1 = toFixed1 (co2Saved c (Num 10.3))
       /\ co2_saved r2 = toFixed1 (2 * co2Saved c (Num 10.3)).
Proof.
  exact (co2_saved_doubles_before_formatting (Str "fly_ash") 10.3
           eq_refl eq_refl eq_refl eq_refl).
Defined.

End CO2.

(** ** Dynamic pricing *)

Section Pricing.

#[local] Open Scope float_scope.

(** The branch on the quantity multiplies by the tier's factor and picks
    the tier's label. *)
Lemma finalPrice_spec (priceData : entry price_data) (multiplier quantity : value) :
  finalPrice priceData multiplier quantity
  = (spec_finalPrice (ToNumber (base_of priceData)) (ToNumber (trend_of priceData))
       (ToNumber multiplier) quantity,
     spec_volumeLabel quantity).
Proof.
  unfold finalPrice, spec_finalPrice, spec_volumeMultiplier, spec_volumeLabel.
  destruct (greater_equal quantity (Num 1000)); [ reflexivity | ].
  destruct (greater_equal quantity (Num 500)); [ reflexivity | ].
  destruct (less_than quantity (Num 100)); [ reflexivity | ].
  now rewrite Binary64.mul_1_r.
Qed.

(** On a key that is not inherited, the reads of the price table and of the
    quality table agree with the specification's tables. *)
Lemma price_data_for_plain (key : option string) :
  plain_key key = true ->
  base_of (price_data_for key) = Num (spec_basePrice key)
  /\ trend_of (price_data_for key) = Num (spec_trend key).
Proof.
  unfold plain_key, price_data_for, property.
  destruct key as [m |]; [ | intros _; split; reflexivity ].
  cbn [property_name spec_basePrice spec_trend basePrices own_property].
  rewrite (String.eqb_sym m "fly_ash"), (String.eqb_sym m "steel_slag"),
    (String.eqb_sym m "silica_fume"), (String.eqb_sym m "bottom_ash").
  destruct ("fly_ash" =? m)%string; [ intros _; split; reflexivity | ].
  destruct ("steel_slag" =? m)%string; [ intros _; split; reflexivity | ].
  destruct ("silica_fume" =? m)%string; [ intros _; split; reflexivity | ].
  destruct ("bottom_ash" =? m)%string; [ intros _; split; reflexivity | ].
  destruct (Object_prototype m); [ discriminate | intros _; split; reflexivity ].
Qed.

Lemma qualityMultiplier_plain (key : option string) :
  plain_key key = true -> qualityMultiplier key = Num (spec_qualityMultiplier key).
Proof.
  unfold plain_key, qualityMultiplier, property.
  destruct key as [g |]; [ | reflexivity ].
  cbn [property_name spec_qualityMultiplier qualityMultipliers own_property].
  rewrite (String.eqb_sym g "premium"), (String.eqb_sym g "grade_a"),
    (String.eqb_sym g "grade_1"), (String.eqb_sym g "standard"),
    (String.eqb_sym g "below_standard").
  destruct ("premium" =? g)%string; [ reflexivity | ].
  destruct ("grade_a" =? g)%string; [ reflexivity | ].
  destruct ("grade_1" =? g)%string; [ reflexivity | ].
  destruct ("standard" =? g)%string; [ reflexivity | ].
  destruct ("below_standard" =? g)%string; [ reflexivity | ].
  destruct (Object_prototype g); [ discriminate | reflexivity ].
Qed.

(** C5. The formula does not hold for every material type and grade.  The
    material 'constructor' names a property that the price table inherits:
    [basePrices[key]] is the [Object] function, the default entry is not
    taken, [base] and [trend] are [undefined] and the price is NaN, where
    the formula with the default base 2500 and trend 1.0 gives
    round(2500 * 1.0 * 1.15 * 1.12) = 3220.  The grade '__proto__' does the
    same through the quality table. *)
Theorem dynamic_price_inherited_name_is_nan :
  (exists r,
     calculateDynamicPricing (Str "constructor") (Str "Mumbai") (Num 1500) (Str "premium")
     = Return r
     /\ final_price r = nan
     /\ volume_adjustment r = "Bulk Premium (+12%)"%string)
  /\ fst (finalPrice (price_data_for (Some "constructor")) (qualityMultiplier (Some "premium"))
            (Num 1500)) = nan
  /\ Math_round (spec_finalPrice (spec_basePrice (Some "constructor"))
                   (spec_trend (Some "constructor"))
                   (spec_qualityMultiplier (Some "premium")) (Num 1500)) = 3220
  /\ (exists r,
        calculateDynamicPricing (Str "fly_ash") (Str "Mumbai") (Num 1500) (Str "__proto__")
        = Return r
        /\ final_price r = nan).
Proof.
  split; [ eexists; split; [ vm_compute; reflexivity | split; reflexivity ] | ].
  split; [ vm_compute; reflexivity | ].
  split; [ vm_compute; reflexivity | ].
  eexists; split; [ vm_compute; reflexivity | reflexivity ].
Qed.

(** X18. Away from the inherited names the price is the specification's
    formula on the specification's tables: base * trend *
    qualityMultiplier(grade) * volumeMultiplier(quantity), base 2500 and
    trend 1.0 for an unknown material, multiplier 1.0 for an unknown grade,
    the tiers tried from the highest threshold down (for a numeric quantity
    q: 1.12 when 1000 <= q, else 1.08 when 500 <= q, else 0.95 when q < 100,
    else 1.0); the reply carries it rounded to an integer, with the tier's
    label.  A quantity of 1500 gets the label and the tier of the 1000
    threshold, not those of the 500 threshold. *)
Theorem dynamic_price_formula (wasteType location quantity qualityGrade : value) :
  string_or_absent wasteType = true ->
  string_or_absent qualityGrade = true ->
  plain_key (material_name wasteType) = true ->
  plain_key (lower_key qualityGrade) = true ->
  let price := spec_finalPrice (spec_basePrice (material_name wasteType))
                 (spec_trend (material_name wasteType))
                 (spec_qualityMultiplier (lower_key qualityGrade)) quantity in
  fst (finalPrice (price_data_for (material_name wasteType))
         (qualityMultiplier (lower_key qualityGrade)) quantity) = price
  /\ (exists r,
        calculateDynamicPricing wasteType location quantity qualityGrade = Return r
        /\ final_price r = Math_round price
        /\ volume_adjustment r = spec_volumeLabel quantity)
  /\ (exists r,
        calculateDynamicPricing wasteType location (Num 1500) qualityGrade = Return r
        /\ volume_adjustment r = "Bulk Premium (+12%)"%string
        /\ volume_tier r = "Bulk"%string
        /\ volume_adjustment r <> "Volume Premium (+8%)"%string)
  /\ (forall q : float,
        spec_volumeMultiplier (Num q)
        = if 1000 <=? q then 1.12
          else if 500 <=? q then 1.08
          else if q <? 100 then 0.95 else 1.0).
Proof.
  intros Hw Hg Pw Pg price.
  destruct (price_data_for_plain _ Pw) as [Hb Ht].
  pose proof (qualityMultiplier_plain _ Pg) as Hq.
  assert (F : forall q,
             finalPrice (price_data_for (material_name wasteType))
               (qualityMultiplier (lower_key qualityGrade)) q
             = (spec_finalPrice (spec_basePrice (material_name wasteType))
                  (spec_trend (material_name wasteType))
                  (spec_qualityMultiplier (lower_key qualityGrade)) q,
                spec_volumeLabel q)).
  { intros q. rewrite finalPrice_spec, Hb, Ht, Hq. reflexivity. }
  split; [ unfold price; now rewrite F | ].
  unfold calculateDynamicPricing.
  rewrite (material_key_typed _ Hw), (toLowerCase_optional_typed _ Hg). cbn [bind].
  split; [ | split ].
  - rewrite F. eexists. split; [ reflexivity | split; reflexivity ].
  - rewrite F. eexists. split; [ reflexivity | ].
    repeat split; try (vm_compute; reflexivity). vm_compute. discriminate.
  - intros q. reflexivity.
Qed.

Lemma dynamic_price_formula_witness :
  fst (finalPrice (price_data_for (Some "steel_slag")) (qualityMultiplier (Some "premium"))
         (Num 200))
  = spec_finalPrice 2200 1.08 1.15 (Num 200)
  /\ (exists r,
        calculateDynamicPricing (Str "Steel Slag") (Str "Pune") (Num 200) (Str "Premium")
        = Return r
        /\ final_price r = Math_round (spec_finalPrice 2200 1.08 1.15 (Num 200))
        /\ volume_adjustment r = spec_volumeLabel (Num 200))
  /\ (exists r,
        calculateDynamicPricing (Str "Steel Slag") (Str "Pune") (Num 1500) (Str "Premium")
        = Return r
        /\ volume_adjustment r = "Bulk Premium (+12%)"%string
        /\ volume_tier r = "Bulk"%string
        /\ volume_adjustment r <> "Volume Premium (+8%)"%string)
  /\ (forall q : float,
        spec_volumeMultiplier (Num q)
        = if 1000 <=? q then 1.12
          else if 500 <=? q then 1.08
          else if q <? 100 then 0.95 else 1.0).
Proof.
  exact (dynamic_price_formula (Str "Steel Slag") (Str "Pune") (Num 200) (Str "Premium")
           eq_refl eq_refl eq_refl eq_refl).
Defined.

End Pricing.

(** ** Revenue *)

Section Revenue.

#[local] Open Scope float_scope.

Lemma absent_or_zero_falsy (v : value) : absent_or_zero v = true -> ToBoolean v = false.
Proof.
  destruct v; simpl; intros H; try discriminate; try reflexivity.
  now rewrite H.
Qed.

(** C7. revenue(1000, 3000, 'premium') is round(1000 * 3000 * 1.15 * 1.12),
    the quality factor applied before the volume factor, and that is
    3,864,000. *)
Theorem revenue_premium_thousand_tons :
  calculateDynamicRevenue (Num 1000) (Num 3000) (Str "premium")
  = Return (Math_round (1000 * 3000 * 1.15 * 1.12))
  /\ Math_round (1000 * 3000 * 1.15 * 1.12) = 3864000.
Proof. split; vm_compute; reflexivity. Qed.

(** C8. The revenue is 0 whenever the quantity is absent or zero, whatever
    the price and the grade, and whenever the price is absent or zero,
    whatever the quantity and the grade. *)
Theorem revenue_zero_without_quantity_or_price (quantity pricePerTon qualityGrade : value) :
  absent_or_zero quantity = true \/ absent_or_zero pricePerTon = true ->
  calculateDynamicRevenue quantity pricePerTon qualityGrade = Return 0.
Proof.
  intros [H | H]; unfold calculateDynamicRevenue;
    rewrite (absent_or_zero_falsy _ H); cbn [negb orb]; [ reflexivity | ].
  now rewrite orb_true_r.
Qed.

Lemma revenue_zero_without_quantity_or_price_witness :
  calculateDynamicRevenue (Num 0) (Num 3000) (Str "premium") = Return 0
  /\ calculateDynamicRevenue (Num 1000) Undefined (Num 7) = Return 0.
Proof.
  split.
  - exact (revenue_zero_without_quantity_or_price (Num 0) (Num 3000) (Str "premium")
             (or_introl eq_refl)).
  - exact (revenue_zero_without_quantity_or_price (Num 1000) Undefined (Num 7)
             (or_intror eq_refl)).
Defined.

End Revenue.

(** ** Totality *)

Section Totality.




End Totality.

(** ** The match record *)

Section CreateMatch.

Lemma not_appended {A : Type} (l : list A) (a : A) : l <> (l ++ [a])%list.
Proof.
  intros E. rewrite <- (app_nil_r l) in E at 1. apply app_inv_head in E. discriminate E.
Qed.

(** A reply that writes nothing is no success and leaves the matches as
    they were. *)
Ltac no_write E H :=
  injection E as <- <-;
  destruct H as [H | H]; [ discriminate H | exfalso; exact (not_appended _ _ H) ].

(** What a written record tells: the handler writes a record only after both
    identifiers were truthy, both documents were found and the three scoring
    functions returned, and the record is the object literal [matchData]
    built from them with the first two readings of the clock. *)
Lemma createMatch_written (body : request_body) (w w' : world) (reply : response)
  (m : match_record) :
  createMatch body w = (reply, w') ->
  reply = Created m \/ matches w' = (matches w ++ [m])%list ->
  exists wasteData requirementData matchScore impact revenue,
    ToBoolean (wasteId body) = true /\ ToBoolean (requirementId body) = true
    /\ listings w (wasteId body) = Resolved (Some wasteData)
    /\ requirements w (requirementId body) = Resolved (Some requirementData)
    /\ calculateAdvancedCompatibility (type wasteData) (quantity wasteData)
         (quality_grade wasteData) (Some requirementData) = Return matchScore
    /\ calculateCO2Impact (type wasteData) (quantity wasteData) = Return impact
    /\ calculateDynamicRevenue (quantity wasteData) (price_offered requirementData)
         Undefined = Return revenue
    /\ m = {| waste_id := wasteId body;
              requirement_id := requirementId body;
              waste_data := wasteData;
              requirement_data := requirementData;
              match_score := matchScore;
              status := "pending_contact";
              user_info := if ToBoolean (userInfo body) then Some (userInfo body) else None;
              contact_preference := or_else (contactPreference body) (Str "email");
              created_at := new_Date (clock w (reads w));
              expires_at := new_Date (clock w (S (reads w)) + 7 * 24 * 60 * 60 * 1000);
              estimated_co2_savings := co2_saved impact;
              estimated_revenue := revenue |}
    /\ matches_add w = Resolved tt
    /\ matches w' = (matches w ++ [m])%list.
Proof.
  unfold createMatch. intros E H.
  destruct (ToBoolean (wasteId body)) eqn:Tw; cbn [negb orb] in E; [ | no_write E H ].
  destruct (ToBoolean (requirementId body)) eqn:Tr; cbn [negb orb] in E; [ | no_write E H ].
  destruct (listings w (wasteId body)) as [[wasteData | ] | ] eqn:Lw;
    destruct (requirements w (requirementId body)) as [[requirementData | ] | ] eqn:Lr;
    try (no_write E H).
  destruct (calculateAdvancedCompatibility _ _ _ _) as [matchScore | ] eqn:Ec;
    [ | no_write E H ].
  unfold matchData, Date_now in E. cbn [clock reads] in E.
  destruct (calculateCO2Impact _ _) as [impact | ] eqn:Ei; cbn [bind] in E;
    [ | no_write E H ].
  destruct (calculateDynamicRevenue _ _ _) as [revenue | ] eqn:Ev; cbn [bind] in E;
    [ | no_write E H ].
  cbn [matches_add] in E.
  destruct (matches_add w) as [[] | ] eqn:Ea; [ | no_write E H ].
  exists wasteData, requirementData, matchScore, impact, revenue.
  do 7 (split; [ first [ reflexivity | assumption ] | ]).
  unfold sendEnhancedNotifications, updateMatchingMetrics, Date_now, add_match in E.
  cbn [notifications_add FieldValue_increment metrics_set matches clock reads] in E.
  assert (W : forall m0, (reply = Created m0 \/ reply = ServerError) ->
              matches w' = (matches w ++ [m0])%list ->
              m = m0 /\ matches w' = (matches w ++ [m0])%list).
  { intros m0 R M. split; [ | exact M ]. destruct H as [K | K].
    - destruct R as [R | R]; rewrite R in K; [ now injection K | discriminate K ].
    - rewrite M in K. apply app_inv_head in K. now injection K. }
  destruct (notifications_add w) as [[] | ];
    [ destruct (FieldValue_increment w) as [[] | ];
      [ cbn [metrics_set] in E; destruct (metrics_set w) as [[] | ] | ] | ];
    injection E as Er Ew;
    match type of Er with
    | ?r = reply =>
        match type of Ew with
        | ?w1 = w' =>
            match goal with
            | |- _ = ?m0 /\ _ =>
                destruct (W m0) as [Em M];
                  [ rewrite <- Er; auto | rewrite <- Ew; reflexivity | ];
                  split; [ exact Em | split; [ reflexivity | rewrite Em; exact M ] ]
            end
        end
    end.
Qed.

(** C9 (as stated) fails: the clock is read once for the creation timestamp
    and once more for the expiry.  When it moves by a millisecond between the
    two readings, the expiry of the record written is 7 days and 1 ms after
    its creation. *)
Lemma match_expiry_follows_second_clock_reading :
  createMatch sample_body sample_world = (ServerError, sample_world_after)
  /\ matches sample_world_after = (matches sample_world ++ [sample_match])%list
  /\ created_at sample_match = Date 1700000000000
  /\ expires_at sample_match = Date (1700000000000 + seven_days + 1)
  /\ expires_at sample_match <> Date (1700000000000 + seven_days).
Proof.
  repeat split; try (vm_compute; reflexivity). vm_compute. discriminate.
Qed.

(** C9 (amended). Every match record the handler writes, whatever it
    replies afterwards, has status 'pending_contact', a creation timestamp
    taken from one reading of the clock, and an expiry exactly 7 days
    (7 * 24 * 60 * 60 * 1000 ms) after the next reading of the clock; the
    expiry is 7 days after the creation timestamp when the two readings
    coincide.  The record of a success reply is a written one. *)
Theorem match_record_status_and_expiry (body : request_body) (w w' : world)
  (reply : response) (m : match_record) :
  createMatch body w = (reply, w') ->
  reply = Created m \/ matches w' = (matches w ++ [m])%list ->
  status m = "pending_contact"
  /\ created_at m = new_Date (clock w (reads w))
  /\ expires_at m = new_Date (clock w (S (reads w)) + seven_days)
  /\ matches w' = (matches w ++ [m])%list
  /\ (clock w (S (reads w)) = clock w (reads w) ->
      forall t, created_at m = Date t -> expires_at m = new_Date (t + seven_days)).
Proof.
  intros E H.
  destruct (createMatch_written body w w' reply m E H)
    as (wasteData & requirementData & matchScore & impact & revenue
        & _ & _ & _ & _ & _ & _ & _ & Em & _ & Ew).
  assert (Hs : status m = "pending_contact") by (rewrite Em; reflexivity).
  assert (Hcr : created_at m = new_Date (clock w (reads w))) by (rewrite Em; reflexivity).
  assert (Hex : expires_at m = new_Date (clock w (S (reads w)) + seven_days))
    by (rewrite Em; reflexivity).
  repeat (split; [ assumption | ]).
  intros Hc t Ht. rewrite Hex, Hc. rewrite Hcr in Ht. unfold new_Date in Ht |- *.
  destruct (Z.abs (clock w (reads w)) <=? 8640000000000000); [ | discriminate ].
  injection Ht as Ht. now rewrite Ht.
Qed.

Lemma match_record_status_and_expiry_witness :
  status sample_match = "pending_contact"
  /\ created_at sample_match = new_Date (ticking_clock 0)
  /\ expires_at sample_match = new_Date (ticking_clock 1 + seven_days)
  /\ matches sample_world_after = (matches sample_world ++ [sample_match])%list
  /\ (ticking_clock 1 = ticking_clock 0 ->
      forall t, created_at sample_match = Date t ->
                expires_at sample_match = new_Date (t + seven_days)).
Proof.
  exact (match_record_status_and_expiry sample_body sample_world sample_world_after
           ServerError sample_match eq_refl (or_intror eq_refl)).
Defined.

End CreateMatch.

(** * Further properties *)

(** ** Order of doubles *)

Module Binary64Order.

Lemma SFleb_trans (x y z : spec_float) :
  SFleb x y = true -> SFleb y z = true -> SFleb x z = true.
Proof.
  unfold SFleb, SFcompare.
  destruct x as [sx | sx | | sx mx ex], y as [sy | sy | | sy my ey],
    z as [sz | sz | | sz mz ez];
    try destruct sx; try destruct sy; try destruct sz;
    try discriminate; try reflexivity;
    change (Pos.compare_cont Eq ?a ?b) with (Pos.compare a b);
    destruct (Z.compare_spec ex ey), (Z.compare_spec ey ez), (Z.compare_spec ex ez);
    try discriminate; try reflexivity; try lia;
    destruct (Pos.compare_spec mx my), (Pos.compare_spec my mz), (Pos.compare_spec mx mz);
    cbn; try discriminate; try reflexivity; try lia.
Qed.

(** [<=] on doubles is transitive. *)
Lemma leb_trans (x y z : float) :
  (x <=? y)%float = true -> (y <=? z)%float = true -> (x <=? z)%float = true.
Proof. rewrite !leb_spec. apply SFleb_trans. Qed.

(** No comparison with NaN holds. *)
Lemma leb_nan_l (x : float) : (nan <=? x)%float = false.
Proof. rewrite leb_spec. reflexivity. Qed.

End Binary64Order.

(** ** Suggestions *)

Section Suggestions.

Lemma keywords_grouped (f : string -> bool) :
  existsb f suggestion_keywords
  = (f "price" || f "cost" || f "rate")
    || (f "co2" || f "carbon" || f "impact" || f "environment")
    || (f "match" || f "find" || f "buyer" || f "sell")
    || (f "register" || f "signup" || f "account").
Proof.
  cbn [existsb suggestion_keywords]. rewrite orb_false_r, !orb_assoc. reflexivity.
Qed.

(** X1. For every text message the suggestions are never empty and never
    more than sixteen, and they are the five default ones exactly when the
    lower-cased message contains none of the fourteen keywords. *)
Theorem suggestions_never_empty (s : string) (context : value) :
  exists l,
    generateSmartSuggestions (Str s) context = Return l
    /\ l <> []
    /\ (List.length l <= 16)%nat
    /\ (l = defaultSuggestions
        <-> existsb (fun w => has_substring w (lower s)) suggestion_keywords = false).
Proof.
  unfold generateSmartSuggestions. cbn [toLowerCase bind].
  rewrite keywords_grouped.
  destruct (has_substring "price" (lower s) || has_substring "cost" (lower s)
            || has_substring "rate" (lower s));
    destruct (has_substring "co2" (lower s) || has_substring "carbon" (lower s)
              || has_substring "impact" (lower s) || has_substring "environment" (lower s));
    destruct (has_substring "match" (lower s) || has_substring "find" (lower s)
              || has_substring "buyer" (lower s) || has_substring "sell" (lower s));
    destruct (has_substring "register" (lower s) || has_substring "signup" (lower s)
              || has_substring "account" (lower s));
    eexists; (split; [ reflexivity | ]); cbn;
    (split; [ discriminate | split; [ lia | split; intros H; try discriminate H; reflexivity ] ]).
Qed.

Lemma suggestions_return (s : string) (context : value) :
  exists l, generateSmartSuggestions (Str s) context = Return l.
Proof. unfold generateSmartSuggestions. cbn [toLowerCase bind]. eexists; reflexivity. Qed.

(** X2. A message that passes the chat endpoint's test is a non-empty
    string, and the suggestions are computed for it without an exception. *)
Theorem accepted_message_gets_suggestions (message context : value) :
  message_rejected message = false ->
  (exists s, message = Str s /\ s <> "")
  /\ (exists l, generateSmartSuggestions message context = Return l).
Proof.
  unfold message_rejected. intros H. apply orb_false_elim in H. destruct H as [Ht Hs].
  destruct message; try discriminate Hs. split.
  - exists s. split; [ reflexivity | ]. intros E. subst s. discriminate Ht.
  - apply suggestions_return.
Qed.

Lemma accepted_message_gets_suggestions_witness :
  (exists s, Str "What is the PRICE of fly ash?" = Str s /\ s <> "")
  /\ (exists l, generateSmartSuggestions (Str "What is the PRICE of fly ash?") Undefined
                = Return l).
Proof.
  exact (accepted_message_gets_suggestions (Str "What is the PRICE of fly ash?") Undefined
           eq_refl).
Defined.

End Suggestions.

(** ** Urgency and capacity in the compatibility score *)

Section Urgency.

Lemma not_high_no_bonus (r : cement_requirement) :
  determineUrgency r <> "High" -> strict_equal (urgency r) (Str "high") = false.
Proof.
  unfold determineUrgency.
  destruct (urgency r) as [ | | b | x | s | b ]; cbn; intros H; try reflexivity.
  - destruct (String.eqb_spec s "high") as [E | E]; [ | reflexivity ].
    subst s. exfalso. apply H. reflexivity.
  - destruct b; reflexivity.
Qed.

(** X3. Only the urgency 'high' earns points: a requirement that
    [determineUrgency] labels anything but "High" ("Very High" included)
    scores exactly as the same requirement without urgency. *)
Theorem urgency_bonus_only_for_high (wasteType quantity qualityGrade : value)
  (requirement : cement_requirement) :
  determineUrgency requirement <> "High" ->
  calculateAdvancedCompatibility wasteType quantity qualityGrade (Some requirement)
  = calculateAdvancedCompatibility wasteType quantity qualityGrade
      (Some (with_urgency Undefined requirement)).
Proof.
  intros H. apply not_high_no_bonus in H.
  unfold calculateAdvancedCompatibility. cbn [with_urgency materials_needed capacity urgency].
  rewrite H. reflexivity.
Qed.

Lemma urgency_bonus_only_for_high_witness :
  determineUrgency (with_urgency (Str "very_high") sample_requirement) = "Very High"
  /\ calculateAdvancedCompatibility (Str "fly_ash") (Num 500) (Str "premium")
       (Some (with_urgency (Str "very_high") sample_requirement))
     = calculateAdvancedCompatibility (Str "fly_ash") (Num 500) (Str "premium")
         (Some (with_urgency Undefined (with_urgency (Str "very_high") sample_requirement))).
Proof.
  split; [ reflexivity | ].
  apply (urgency_bonus_only_for_high (Str "fly_ash") (Num 500) (Str "premium")
           (with_urgency (Str "very_high") sample_requirement)).
  vm_compute. discriminate.
Defined.

#[local] Open Scope float_scope.

Lemma greater_equal_number (c : float) (q : value) :
  greater_equal (Num c) q = (ToNumber q <=? c).
Proof. reflexivity. Qed.

Lemma capacity_bonus_monotone (c1 c2 : float) (quantity : value) :
  (c1 <=? c2) = true ->
  (spec_capacity_bonus (Num c1) quantity <= spec_capacity_bonus (Num c2) quantity)%Z.
Proof.
  intros H. unfold spec_capacity_bonus. rewrite !greater_equal_number.
  change (ToNumber (Num (ToNumber quantity * 0.7))) with (ToNumber quantity * 0.7).
  destruct (ToNumber quantity <=? c1) eqn:A; destruct (ToNumber quantity <=? c2) eqn:B;
    destruct (ToNumber quantity * 0.7 <=? c1) eqn:C;
    destruct (ToNumber quantity * 0.7 <=? c2) eqn:D; try (cbv iota; lia).
  all: try (rewrite (Binary64Order.leb_trans _ _ _ A H) in B; discriminate B).
  all: rewrite (Binary64Order.leb_trans _ _ _ C H) in D; discriminate D.
Qed.

(** X4. The score never goes down when the requirement's capacity goes up:
    for numeric capacities c1 <= c2 and otherwise equal arguments (the
    materials list an array, a string or absent; the material type and the
    grade strings or absent; the grade not a name inherited from
    Object.prototype), both scores are integers and the score with c1 is at
    most the score with c2. *)
Theorem compatibility_monotone_in_capacity (wasteType quantity qualityGrade : value)
  (requirement : cement_requirement) (c1 c2 : float) :
  (c1 <=? c2) = true ->
  list_or_absent (materials_needed requirement) = true ->
  string_or_absent wasteType = true ->
  string_or_absent qualityGrade = true ->
  plain_key (lower_key qualityGrade) = true ->
  exists n1 n2 : Z,
    calculateAdvancedCompatibility wasteType quantity qualityGrade
      (Some (with_capacity (Num c1) requirement)) = Return (float_of_Z n1)
    /\ calculateAdvancedCompatibility wasteType quantity qualityGrade
         (Some (with_capacity (Num c2) requirement)) = Return (float_of_Z n2)
    /\ (n1 <= n2)%Z.
Proof.
  intros Hc Hm Hw Hg Hp.
  destruct (includes_optional_typed _ _ Hm Hw) as [matched Hi].
  do 2 eexists. split; [ | split ].
  - apply compatibility_formula with (matched := matched); auto.
  - apply compatibility_formula with (matched := matched); auto.
  - unfold spec_compatibility. cbn [with_capacity capacity urgency].
    pose proof (capacity_bonus_monotone c1 c2 quantity Hc). lia.
Qed.

Lemma compatibility_monotone_in_capacity_witness :
  exists n1 n2 : Z,
    calculateAdvancedCompatibility (Str "fly_ash") (Num 500) (Str "premium")
      (Some (with_capacity (Num 300) sample_requirement)) = Return (float_of_Z n1)
    /\ calculateAdvancedCompatibility (Str "fly_ash") (Num 500) (Str "premium")
         (Some (with_capacity (Num 400) sample_requirement)) = Return (float_of_Z n2)
    /\ (n1 <= n2)%Z.
Proof.
  exact (compatibility_monotone_in_capacity (Str "fly_ash") (Num 500) (Str "premium")
           sample_requirement 300 400 eq_refl eq_refl eq_refl eq_refl eq_refl).
Defined.

(** X5. Without a quantity (undefined) the capacity plays no part: the
    score is the one of the same requirement without capacity, whatever the
    other arguments. *)
Theorem undefined_quantity_ignores_capacity (wasteType qualityGrade : value)
  (requirement : cement_requirement) :
  calculateAdvancedCompatibility wasteType Undefined qualityGrade (Some requirement)
  = calculateAdvancedCompatibility wasteType Undefined qualityGrade
      (Some (with_capacity Undefined requirement)).
Proof.
  assert (G : forall c q, q = Undefined \/ q = Num nan -> greater_equal c q = false).
  { intros c q [E | E]; subst q; unfold greater_equal; cbn [ToPrimitive];
      (assert (L : (nan <=? ToNumber c) = false) by apply Binary64Order.leb_nan_l);
      destruct (ToPrimitive c); exact L. }
  unfold calculateAdvancedCompatibility.
  cbn [with_capacity materials_needed capacity urgency].
  change (Num (ToNumber Undefined * 0.7)) with (Num nan).
  rewrite !(G _ Undefined (or_introl eq_refl)), !(G _ (Num nan) (or_intror eq_refl)).
  reflexivity.
Qed.

End Urgency.

(** ** Revenue and price *)

Section RevenueAndPrice.

#[local] Open Scope float_scope.

(** The revenue multiplies by what the read of the quality table gives, the
    read being the one of the price estimate. *)
Lemma revenue_reads_quality_table (quantity pricePerTon qualityGrade : value) :
  ToBoolean quantity = true ->
  ToBoolean pricePerTon = true ->
  string_or_absent qualityGrade = true ->
  calculateDynamicRevenue quantity pricePerTon qualityGrade
  = Return (Math_round (ToNumber quantity * ToNumber pricePerTon
                        * ToNumber (qualityMultiplier (lower_key qualityGrade))
                        * revenue_volume_factor quantity)).
Proof.
  intros Hq Hp Hg. unfold calculateDynamicRevenue, revenue_volume_factor.
  rewrite Hq, Hp. cbn [negb orb].
  assert (V : forall x : float,
             (if greater_equal quantity (Num 1000) then x * 1.12
              else if greater_equal quantity (Num 500) then x * 1.08 else x)
             = x * (if greater_equal quantity (Num 1000) then 1.12
                    else if greater_equal quantity (Num 500) then 1.08 else 1.0)).
  { intros x. destruct (greater_equal quantity (Num 1000)); [ reflexivity | ].
    destruct (greater_equal quantity (Num 500)); [ reflexivity | ].
    now rewrite Binary64.mul_1_r. }
  destruct qualityGrade as [ | | b | x | s | b ]; try discriminate Hg;
    cbn [ToBoolean bind lower_key].
  - change (ToNumber (qualityMultiplier None)) with 1. rewrite Binary64.mul_1_r, V.
    reflexivity.
  - change (ToNumber (qualityMultiplier None)) with 1. rewrite Binary64.mul_1_r, V.
    reflexivity.
  - destruct (String.eqb_spec s "") as [E | E]; cbn [negb bind].
    + subst s. change (ToNumber (qualityMultiplier (Some (lower "")))) with 1.
      rewrite Binary64.mul_1_r, V. reflexivity.
    + rewrite V. reflexivity.
Qed.

(** X6. When quantity and price are both truthy and the grade is a string or
    absent and not a name inherited from Object.prototype, the revenue is
    round(quantity * price * m * v): m is the grade's entry in the quality
    table (premium 1.15, grade_a and grade_1 1.08, standard 1.0,
    below_standard 0.85, and 1.0 for an absent, empty or unknown grade),
    which is also the multiplier the price estimate reads for that grade; v
    is 1.12 from 1000 units, 1.08 from 500, else 1.0. *)
Theorem revenue_closed_form (quantity pricePerTon qualityGrade : value) :
  ToBoolean quantity = true ->
  ToBoolean pricePerTon = true ->
  string_or_absent qualityGrade = true ->
  plain_key (lower_key qualityGrade) = true ->
  calculateDynamicRevenue quantity pricePerTon qualityGrade
  = Return (Math_round (ToNumber quantity * ToNumber pricePerTon
                        * spec_qualityMultiplier (lower_key qualityGrade)
                        * revenue_volume_factor quantity))
  /\ qualityMultiplier (lower_key qualityGrade)
     = Num (spec_qualityMultiplier (lower_key qualityGrade)).
Proof.
  intros Hq Hp Hg Hk.
  rewrite (revenue_reads_quality_table _ _ _ Hq Hp Hg).
  rewrite (qualityMultiplier_plain _ Hk). split; reflexivity.
Qed.

Lemma revenue_closed_form_witness :
  calculateDynamicRevenue (Num 600) (Num 3000) (Str "Grade_A")
  = Return (Math_round (600 * 3000 * 1.08 * 1.08))
  /\ qualityMultiplier (Some "grade_a") = Num 1.08.
Proof.
  exact (revenue_closed_form (Num 600) (Num 3000) (Str "Grade_A")
           eq_refl eq_refl eq_refl eq_refl).
Defined.

Lemma same_up_to_case_chain (a b : value) :
  same_up_to_case a b ->
  toLowerCase_optional a = toLowerCase_optional b /\ ToBoolean a = ToBoolean b.
Proof.
  destruct a, b; cbn; intros H; try discriminate H; try (injection H as H; subst);
    try (split; reflexivity).
  split; [ now rewrite H | ].
  destruct s, s0; cbn in *; try reflexivity; discriminate H.
Qed.

(** X7. The letter case of the material type, of the quality grade and of
    the two locations never matters: arguments that differ only by case give
    the same result (or the same exception) in compatibility, revenue, CO2
    impact, price and distance. *)
Theorem scoring_ignores_letter_case
  (Math_sin Math_cos Math_sqrt : float -> float) (Math_atan2 : float -> float -> float)
  (wasteType wasteType' qualityGrade qualityGrade' location1 location1' location2 location2'
     quantity pricePerTon : value)
  (requirement : option cement_requirement) :
  same_up_to_case wasteType wasteType' ->
  same_up_to_case qualityGrade qualityGrade' ->
  same_up_to_case location1 location1' ->
  same_up_to_case location2 location2' ->
  calculateAdvancedCompatibility wasteType quantity qualityGrade requirement
  = calculateAdvancedCompatibility wasteType' quantity qualityGrade' requirement
  /\ calculateDynamicRevenue quantity pricePerTon qualityGrade
     = calculateDynamicRevenue quantity pricePerTon qualityGrade'
  /\ calculateCO2Impact wasteType quantity = calculateCO2Impact wasteType' quantity
  /\ calculateDynamicPricing wasteType location1 quantity qualityGrade
     = calculateDynamicPricing wasteType' location1' quantity qualityGrade'
  /\ calculateOptimalDistance Math_sin Math_cos Math_sqrt Math_atan2 location1 location2
     = calculateOptimalDistance Math_sin Math_cos Math_sqrt Math_atan2 location1' location2'.
Proof.
  intros Hw Hg H1 H2.
  destruct (same_up_to_case_chain _ _ Hw) as [Lw _].
  destruct (same_up_to_case_chain _ _ Hg) as [Lg Bg].
  destruct (same_up_to_case_chain _ _ H1) as [L1 _].
  destruct (same_up_to_case_chain _ _ H2) as [L2 _].
  repeat split.
  - unfold calculateAdvancedCompatibility, includes_optional. now rewrite Lw, Lg.
  - unfold calculateDynamicRevenue. rewrite Bg.
    destruct qualityGrade, qualityGrade'; cbn in Hg; try discriminate Hg;
      try (injection Hg as Hg; subst); try reflexivity.
    now rewrite Hg.
  - unfold calculateCO2Impact, material_key. now rewrite Lw.
  - unfold calculateDynamicPricing, material_key. now rewrite Lw, Lg.
  - unfold calculateOptimalDistance. now rewrite L1, L2.
Qed.

Lemma scoring_ignores_letter_case_witness :
  calculateAdvancedCompatibility (Str "Fly_Ash") (Num 500) (Str "PREMIUM")
    (Some sample_requirement)
  = calculateAdvancedCompatibility (Str "fly_ash") (Num 500) (Str "premium")
      (Some sample_requirement)
  /\ calculateDynamicRevenue (Num 500) (Num 3000) (Str "PREMIUM")
     = calculateDynamicRevenue (Num 500) (Num 3000) (Str "premium")
  /\ calculateCO2Impact (Str "Fly_Ash") (Num 500) = calculateCO2Impact (Str "fly_ash") (Num 500)
  /\ calculateDynamicPricing (Str "Fly_Ash") (Str "Delhi") (Num 500) (Str "PREMIUM")
     = calculateDynamicPricing (Str "fly_ash") (Str "DELHI") (Num 500) (Str "premium")
  /\ calculateOptimalDistance sqrt sqrt sqrt (fun y x => y / x) (Str "Delhi") Null
     = calculateOptimalDistance sqrt sqrt sqrt (fun y x => y / x) (Str "DELHI") Null.
Proof.
  exact (scoring_ignores_letter_case sqrt sqrt sqrt (fun y x => y / x)
           (Str "Fly_Ash") (Str "fly_ash") (Str "PREMIUM") (Str "premium")
           (Str "Delhi") (Str "DELHI") Null Null (Num 500) (Num 3000)
           (Some sample_requirement) eq_refl eq_refl eq_refl eq_refl).
Defined.

Lemma greater_equal_than_number (q : value) (c : float) :
  greater_equal q (Num c) = (c <=? ToNumber q).
Proof. unfold greater_equal. destruct (ToPrimitive q); reflexivity. Qed.

Lemma at_least_1000_is_at_least_500 (q : value) :
  greater_equal q (Num 1000) = true -> greater_equal q (Num 500) = true.
Proof.
  rewrite !greater_equal_than_number. apply Binary64Order.leb_trans. reflexivity.
Qed.

(** X8. In every price analysis the three volume fields agree: bulk_premium
    12 goes with tier "Bulk" and label "Bulk Premium (+12%)", 8 with "Volume"
    and "Volume Premium (+8%)", and 0 with "Standard" and one of the labels
    "Small Batch (-5%)" and "Standard Rate". *)
Theorem price_volume_fields_agree (wasteType location quantity qualityGrade : value)
  (r : price_analysis) :
  calculateDynamicPricing wasteType location quantity qualityGrade = Return r ->
  (bulk_premium r = 12%Z /\ volume_tier r = "Bulk"%string
   /\ volume_adjustment r = "Bulk Premium (+12%)"%string)
  \/ (bulk_premium r = 8%Z /\ volume_tier r = "Volume"%string
      /\ volume_adjustment r = "Volume Premium (+8%)"%string)
  \/ (bulk_premium r = 0%Z /\ volume_tier r = "Standard"%string
      /\ (volume_adjustment r = "Small Batch (-5%)"%string
          \/ volume_adjustment r = "Standard Rate"%string)).
Proof.
  unfold calculateDynamicPricing.
  destruct (material_key wasteType) as [key | ]; cbn [bind]; [ | discriminate ].
  destruct (toLowerCase_optional qualityGrade) as [grade | ]; cbn [bind]; [ | discriminate ].
  rewrite finalPrice_spec. unfold spec_volumeLabel.
  intros E. injection E as E. subst r.
  cbn [bulk_premium volume_tier volume_adjustment].
  pose proof (at_least_1000_is_at_least_500 quantity) as T.
  destruct (greater_equal quantity (Num 1000)).
  - rewrite (T eq_refl). left. repeat split.
  - destruct (greater_equal quantity (Num 500)); [ right; left; repeat split | ].
    right. right. destruct (less_than quantity (Num 100)); repeat split; auto.
Qed.

Lemma price_volume_fields_agree_witness :
  (bulk_premium sample_price_analysis = 12%Z
   /\ volume_tier sample_price_analysis = "Bulk"%string
   /\ volume_adjustment sample_price_analysis = "Bulk Premium (+12%)"%string)
  \/ (bulk_premium sample_price_analysis = 8%Z
      /\ volume_tier sample_price_analysis = "Volume"%string
      /\ volume_adjustment sample_price_analysis = "Volume Premium (+8%)"%string)
  \/ (bulk_premium sample_price_analysis = 0%Z
      /\ volume_tier sample_price_analysis = "Standard"%string
      /\ (volume_adjustment sample_price_analysis = "Small Batch (-5%)"%string
          \/ volume_adjustment sample_price_analysis = "Standard Rate"%string)).
Proof.
  exact (price_volume_fields_agree (Str "steel_slag") Undefined (Num 600) (Str "premium")
           sample_price_analysis eq_refl).
Defined.

End RevenueAndPrice.

(** ** Distance *)

Section DistanceFallback.

Lemma city_for_unknown (v : value) (fallback : string) :
  lower fallback = fallback ->
  unknown_location v = true ->
  toLowerCase_optional v = Return (lower_key v)
  /\ city_for (lower_key v) fallback = city_for (Some (lower fallback)) fallback.
Proof.
  unfold unknown_location. intros F H. apply andb_prop in H. destruct H as [Ht Hk].
  split; [ now apply toLowerCase_optional_typed | ].
  unfold city_for at 1.
  destruct (property cityCoordinates (lower_key v)); [ discriminate | ].
  rewrite F. unfold city_for.
  destruct (property cityCoordinates (Some fallback)); reflexivity.
Qed.

(** X9. An origin that is absent, or a string whose lower-cased text is
    neither a city of the table nor a name inherited from Object.prototype,
    is taken to be Mumbai, and such a destination is taken to be Pune: the
    distance is the one computed for those cities, whatever the other end. *)
Theorem unknown_location_falls_back
  (Math_sin Math_cos Math_sqrt : float -> float) (Math_atan2 : float -> float -> float)
  (location1 location2 : value) :
  (unknown_location location1 = true ->
   calculateOptimalDistance Math_sin Math_cos Math_sqrt Math_atan2 location1 location2
   = calculateOptimalDistance Math_sin Math_cos Math_sqrt Math_atan2 (Str "mumbai") location2)
  /\ (unknown_location location2 = true ->
      calculateOptimalDistance Math_sin Math_cos Math_sqrt Math_atan2 location1 location2
      = calculateOptimalDistance Math_sin Math_cos Math_sqrt Math_atan2 location1 (Str "pune")).
Proof.
  unfold calculateOptimalDistance. split; intros H.
  - destruct (city_for_unknown _ "mumbai" eq_refl H) as [L C].
    rewrite L. cbn [bind toLowerCase_optional]. rewrite C. reflexivity.
  - destruct (city_for_unknown _ "pune" eq_refl H) as [L C].
    rewrite L. cbn [bind toLowerCase_optional]. rewrite C. reflexivity.
Qed.

Lemma unknown_location_falls_back_witness :
  calculateOptimalDistance sqrt sqrt sqrt (fun y x => (y / x)%float) (Str "Atlantis")
    (Str "delhi")
  = calculateOptimalDistance sqrt sqrt sqrt (fun y x => (y / x)%float) (Str "mumbai")
      (Str "delhi")
  /\ calculateOptimalDistance sqrt sqrt sqrt (fun y x => (y / x)%float) (Str "delhi") Undefined
     = calculateOptimalDistance sqrt sqrt sqrt (fun y x => (y / x)%float) (Str "delhi")
         (Str "pune").
Proof.
  split.
  - exact (proj1 (unknown_location_falls_back sqrt sqrt sqrt (fun y x => (y / x)%float)
                    (Str "Atlantis") (Str "delhi")) eq_refl).
  - exact (proj2 (unknown_location_falls_back sqrt sqrt sqrt (fun y x => (y / x)%float)
                    (Str "delhi") Undefined) eq_refl).
Defined.

End DistanceFallback.

(** ** The createMatch handler *)

Section CreateMatchMore.

(** The ways through the handler: the 400 reply, the 404 reply, a 500 reply
    before anything is written, and a write followed by the success reply or
    by a 500 reply. *)
Lemma createMatch_cases (body : request_body) (w w' : world) (reply : response) :
  createMatch body w = (reply, w') ->
  ((ToBoolean (wasteId body) = false \/ ToBoolean (requirementId body) = false)
   /\ reply = BadRequest /\ w' = w)
  \/ (ToBoolean (wasteId body) = true /\ ToBoolean (requirementId body) = true
      /\ (((exists a b,
              listings w (wasteId body) = Resolved a
              /\ requirements w (requirementId body) = Resolved b
              /\ (a = None \/ b = None))
           /\ reply = NotFound /\ w' = w)
          \/ ((listings w (wasteId body) = Rejected
               \/ requirements w (requirementId body) = Rejected
               \/ exists wasteData requirementData,
                    listings w (wasteId body) = Resolved (Some wasteData)
                    /\ requirements w (requirementId body) = Resolved (Some requirementData))
              /\ listings w' = listings w /\ requirements w' = requirements w
              /\ clock w' = clock w /\ (reads w <= reads w')%nat
              /\ ((reply = ServerError /\ matches w' = matches w)
                  \/ exists m, (reply = Created m \/ reply = ServerError)
                               /\ matches w' = (matches w ++ [m])%list)))).
Proof.
  unfold createMatch. intros E.
  destruct (ToBoolean (wasteId body)) eqn:Tw; cbn [negb orb] in E;
    [ | injection E as <- <-; left; repeat split; now left ].
  destruct (ToBoolean (requirementId body)) eqn:Tr; cbn [negb orb] in E;
    [ | injection E as <- <-; left; repeat split; now right ].
  right. do 2 (split; [ reflexivity | ]).
  assert (quiet : forall w0 : world,
            (ServerError, w0) = (reply, w') ->
            listings w0 = listings w -> requirements w0 = requirements w ->
            clock w0 = clock w -> (reads w <= reads w0)%nat -> matches w0 = matches w ->
            listings w' = listings w /\ requirements w' = requirements w
            /\ clock w' = clock w /\ (reads w <= reads w')%nat
            /\ ((reply = ServerError /\ matches w' = matches w)
                \/ exists m, (reply = Created m \/ reply = ServerError)
                             /\ matches w' = (matches w ++ [m])%list)).
  { intros w0 E0 ? ? ? ? ?. injection E0 as <- <-.
    repeat (split; [ assumption | ]). left. now split. }
  destruct (listings w (wasteId body)) as [[wasteData | ] | ] eqn:Lw;
    destruct (requirements w (requirementId body)) as [[requirementData | ] | ] eqn:Lr;
    try (injection E as <- <-; left;
         split; [ do 2 eexists; repeat split; auto | split; reflexivity ]; fail);
    try (right; split; [ auto | apply (quiet _ E); auto; reflexivity ]; fail).
  right.
  split; [ right; right; do 2 eexists; split; reflexivity | ].
  destruct (calculateAdvancedCompatibility _ _ _ _) as [matchScore | ];
    [ | apply (quiet _ E); auto; reflexivity ].
  unfold matchData, Date_now in E. cbn [clock reads] in E.
  destruct (calculateCO2Impact _ _) as [impact | ]; cbn [bind] in E;
    [ | apply (quiet _ E); cbn; auto ].
  destruct (calculateDynamicRevenue _ _ _) as [revenue | ]; cbn [bind] in E;
    [ | apply (quiet _ E); cbn; auto ].
  cbn [matches_add] in E.
  destruct (matches_add w) as [[] | ]; [ | apply (quiet _ E); cbn; auto ].
  unfold sendEnhancedNotifications, updateMatchingMetrics, Date_now, add_match in E.
  cbn [notifications_add FieldValue_increment metrics_set matches clock reads] in E.
  destruct (notifications_add w) as [[] | ];
    [ destruct (FieldValue_increment w) as [[] | ];
      [ cbn [metrics_set] in E; destruct (metrics_set w) as [[] | ] | ] | ];
    injection E as <- <-;
    cbn [listings requirements clock reads matches];
    repeat (split; [ first [ reflexivity | lia ] | ]);
    right; eexists; (split; [ | reflexivity ]); auto.
Qed.

(** X10. Whatever the request and whatever the document store answers, the
    handler leaves the store's answers and the clock as they were, reads the
    clock forward only, and never drops or changes a stored match: the
    matches afterwards are the matches before, followed by at most one new
    record.  The record of a success reply has always been written. *)
Theorem createMatch_only_appends (body : request_body) (w : world) :
  let '(reply, w') := createMatch body w in
  listings w' = listings w
  /\ requirements w' = requirements w
  /\ clock w' = clock w
  /\ (reads w <= reads w')%nat
  /\ (matches w' = matches w \/ exists m, matches w' = (matches w ++ [m])%list)
  /\ (forall m, reply = Created m -> matches w' = (matches w ++ [m])%list).
Proof.
  destruct (createMatch body w) as [reply w'] eqn:E.
  destruct (createMatch_cases body w w' reply E)
    as [(_ & R & ->) | (_ & _ & [(_ & R & ->) | (_ & L & Q & C & N & M)])].
  - repeat split; try (now left). intros m K. rewrite R in K. discriminate K.
  - repeat split; try (now left). intros m K. rewrite R in K. discriminate K.
  - repeat (split; [ assumption | ]).
    destruct M as [[R M] | [m0 [R M]]].
    + split; [ now left | ]. intros m K. rewrite R in K. discriminate K.
    + split; [ right; now exists m0 | ].
      intros m K. destruct R as [R | R]; rewrite R in K; [ | discriminate K ].
      injection K as <-. exact M.
Qed.

(** X11. The reply is 400 exactly when one of the two identifiers is falsy
    (missing, empty, zero); it is 404 exactly when both are truthy, both
    requests to the document store resolve, and one of them finds no
    document.  In both cases nothing is written and the clock is not read. *)
Theorem createMatch_rejections (body : request_body) (w : world) :
  (fst (createMatch body w) = BadRequest
   <-> ToBoolean (wasteId body) = false \/ ToBoolean (requirementId body) = false)
  /\ (fst (createMatch body w) = NotFound
      <-> ToBoolean (wasteId body) = true /\ ToBoolean (requirementId body) = true
          /\ exists a b,
               listings w (wasteId body) = Resolved a
               /\ requirements w (requirementId body) = Resolved b
               /\ (a = None \/ b = None))
  /\ (fst (createMatch body w) = BadRequest \/ fst (createMatch body w) = NotFound ->
      snd (createMatch body w) = w).
Proof.
  destruct (createMatch body w) as [reply w'] eqn:E. cbn [fst snd].
  destruct (createMatch_cases body w w' reply E)
    as [(F & R & ->) | (Tw & Tr & [(N & R & ->) | (S & _ & _ & _ & _ & M)])].
  - rewrite R. split; [ | split ].
    + split; auto.
    + split; [ discriminate | ].
      intros (Tw & Tr & _). destruct F as [F | F]; congruence.
    + reflexivity.
  - rewrite R. split; [ | split ].
    + split; [ discriminate | ]. intros [F | F]; congruence.
    + split; auto.
    + reflexivity.
  - assert (R : reply <> BadRequest /\ reply <> NotFound).
    { destruct M as [[R _] | [m [[R | R] _]]]; rewrite R; split; discriminate. }
    destruct R as [RB RN]. split; [ | split ].
    + split; [ intros K; contradiction | intros [F | F]; congruence ].
    + split; [ intros K; contradiction | ].
      intros (_ & _ & a & b & La & Lb & [-> | ->]);
        destruct S as [S | [S | (wd & rd & Sw & Sr)]]; congruence.
    + intros [K | K]; contradiction.
Qed.

End CreateMatchMore.

Section CreateMatchRecord.

(** X12. A match is written only for documents the store has answered with:
    both identifiers are truthy, the record carries them and the two
    documents the store resolved for them, and its score, its CO2 figure and
    its revenue are what the scoring functions return for those documents,
    the revenue being computed without the quality grade.  This holds for
    every written record, whether the reply is the success reply or a 500. *)
Theorem written_match_reflects_documents (body : request_body) (w w' : world)
  (reply : response) (m : match_record) :
  createMatch body w = (reply, w') ->
  reply = Created m \/ matches w' = (matches w ++ [m])%list ->
  ToBoolean (wasteId body) = true /\ ToBoolean (requirementId body) = true
  /\ waste_id m = wasteId body /\ requirement_id m = requirementId body
  /\ listings w (wasteId body) = Resolved (Some (waste_data m))
  /\ requirements w (requirementId body) = Resolved (Some (requirement_data m))
  /\ calculateAdvancedCompatibility (type (waste_data m)) (quantity (waste_data m))
       (quality_grade (waste_data m)) (Some (requirement_data m))
     = Return (match_score m)
  /\ calculateDynamicRevenue (quantity (waste_data m))
       (price_offered (requirement_data m)) Undefined
     = Return (estimated_revenue m)
  /\ exists impact,
       calculateCO2Impact (type (waste_data m)) (quantity (waste_data m)) = Return impact
       /\ estimated_co2_savings m = co2_saved impact.
Proof.
  intros E H.
  destruct (createMatch_written body w w' reply m E H)
    as (wasteData & requirementData & matchScore & impact & revenue
        & Tw & Tr & Lw & Lr & Ec & Ei & Ev & -> & _ & _).
  cbn [waste_id requirement_id waste_data requirement_data match_score estimated_revenue
       estimated_co2_savings].
  repeat (split; [ first [ assumption | reflexivity ] | ]).
  exists impact. split; [ assumption | reflexivity ].
Qed.

Lemma written_match_reflects_documents_witness :
  ToBoolean (wasteId sample_body) = true /\ ToBoolean (requirementId sample_body) = true
  /\ waste_id sample_match = wasteId sample_body
  /\ requirement_id sample_match = requirementId sample_body
  /\ listings sample_world (wasteId sample_body) = Resolved (Some (waste_data sample_match))
  /\ requirements sample_world (requirementId sample_body)
     = Resolved (Some (requirement_data sample_match))
  /\ calculateAdvancedCompatibility (type (waste_data sample_match))
       (quantity (waste_data sample_match)) (quality_grade (waste_data sample_match))
       (Some (requirement_data sample_match))
     = Return (match_score sample_match)
  /\ calculateDynamicRevenue (quantity (waste_data sample_match))
       (price_offered (requirement_data sample_match)) Undefined
     = Return (estimated_revenue sample_match)
  /\ exists impact,
       calculateCO2Impact (type (waste_data sample_match))
         (quantity (waste_data sample_match)) = Return impact
       /\ estimated_co2_savings sample_match = co2_saved impact.
Proof.
  exact (written_match_reflects_documents sample_body sample_world sample_world_after
           ServerError sample_match eq_refl (or_intror eq_refl)).
Defined.

End CreateMatchRecord.

(** ** Impact figures *)

Section Impact.

#[local] Open Scope float_scope.

Lemma mul_nan_l (x : float) : nan * x = nan.
Proof. apply Prim2SF_inj. rewrite mul_spec. reflexivity. Qed.

Lemma or_else_truthy (a b : value) : ToBoolean b = true -> ToBoolean (or_else a b) = true.
Proof. unfold or_else. intros H. destruct (ToBoolean a) eqn:E; assumption. Qed.

(** X13. The CO2 endpoint's two carbon-credit figures agree when a quantity
    is given, and part when it is not: without a quantity (undefined) the CO2
    impact is the one of 100 tons, while the economic impact has no material
    revenue (null) and NaN for its carbon-credit value and for its total. *)
Theorem impact_figures_with_and_without_quantity (waste_type location : value)
  (query : result (option impact_document)) :
  string_or_absent waste_type = true ->
  (forall quantity, ToBoolean quantity = true ->
     exists co2 eco cum,
       impact_data waste_type quantity location query = Return (co2, eco, cum)
       /\ carbon_credit_value eco = carbon_credits co2)
  /\ (exists co2 eco cum,
        impact_data waste_type Undefined location query = Return (co2, eco, cum)
        /\ calculateCO2Impact waste_type (Num 100) = Return co2
        /\ material_revenue eco = Null
        /\ carbon_credit_value eco = nan
        /\ economic_total_value eco = nan).
Proof.
  intros Hw. split.
  - intros quantity Hq. unfold impact_data, calculateEconomicImpact, or_else at 1.
    rewrite Hq.
    unfold calculateDynamicPricing, calculateCO2Impact.
    rewrite (material_key_typed _ Hw). cbn [bind toLowerCase_optional].
    destruct (finalPrice _ _ _). cbn [bind]. do 3 eexists. split; reflexivity.
  - unfold impact_data, calculateEconomicImpact.
    change (or_else Undefined (Num 100)) with (Num 100).
    unfold calculateDynamicPricing, calculateCO2Impact.
    rewrite (material_key_typed _ Hw). cbn [bind toLowerCase_optional].
    destruct (finalPrice _ _ _). cbn [bind]. do 3 eexists.
    split; [ reflexivity | split; [ reflexivity | ] ].
    cbn [material_revenue carbon_credit_value economic_total_value total_value
         carbon_credits ToBoolean].
    assert (C : Math_round (co2Saved (coefficient_for (material_name waste_type)) Undefined
                            * 1200) = nan).
    { unfold co2Saved. change (ToNumber Undefined) with nan. rewrite !mul_nan_l.
      reflexivity. }
    rewrite C. repeat split.
Qed.

Lemma impact_figures_with_and_without_quantity_witness :
  (forall quantity, ToBoolean quantity = true ->
     exists co2 eco cum,
       impact_data (Str "fly_ash") quantity Undefined (Return None) = Return (co2, eco, cum)
       /\ carbon_credit_value eco = carbon_credits co2)
  /\ (exists co2 eco cum,
        impact_data (Str "fly_ash") Undefined Undefined (Return None) = Return (co2, eco, cum)
        /\ calculateCO2Impact (Str "fly_ash") (Num 100) = Return co2
        /\ material_revenue eco = Null
        /\ carbon_credit_value eco = nan
        /\ economic_total_value eco = nan).
Proof.
  exact (impact_figures_with_and_without_quantity (Str "fly_ash") Undefined (Return None)
           eq_refl).
Defined.

(** X14. The cumulative impact never reports a zero or missing total: both
    totals are truthy whatever the query yields, and when the query fails,
    finds no document, or finds one whose totals are zero or missing, the
    figures are the built-in ones (12500 tons, 15000 trees, 2300000). *)
Theorem cumulative_impact_defaults :
  (forall query,
     ToBoolean (total_co2 (getCumulativeImpact query)) = true
     /\ ToBoolean (cumulative_total_revenue (getCumulativeImpact query)) = true)
  /\ (forall e, getCumulativeImpact (Throw e) = getCumulativeImpact (Return None))
  /\ (forall d,
        ToBoolean (total_co2_saved d) = false -> ToBoolean (total_revenue d) = false ->
        getCumulativeImpact (Return (Some d)) = getCumulativeImpact (Return None))
  /\ getCumulativeImpact (Return None)
     = {| total_co2 := Num 12500; equivalent_forest := 15000;
          cumulative_total_revenue := Num 2300000 |}.
Proof.
  split; [ | split; [ | split ] ].
  - intros [found | e]; cbn [getCumulativeImpact total_co2 cumulative_total_revenue];
      [ | split; reflexivity ].
    split; apply or_else_truthy; reflexivity.
  - intros e. vm_compute. reflexivity.
  - intros d Hc Hr. unfold getCumulativeImpact, or_else. rewrite Hc, Hr. reflexivity.
  - vm_compute. reflexivity.
Qed.

End Impact.

(** ** The ranking of the matcher endpoint *)

Section Ranking.

Import Matcher.

Variables Math_sin Math_cos Math_sqrt : float -> float.
Variable Math_atan2 : float -> float -> float.

(** On regular scores the comparator is positive exactly when its first
    argument has the lower score, and [<=] on the doubles is [<=] on the
    integers. *)
Lemma regular_scores_compare (n m : Z) :
  55 <= n <= 98 -> 55 <= m <= 98 ->
  (0 <? float_of_Z m - float_of_Z n)%float = (n <? m)%Z
  /\ (float_of_Z m <=? float_of_Z n)%float = (m <=? n)%Z.
Proof.
  intros Hn Hm.
  assert (A : forallb (fun a => forallb (fun b =>
                let x := float_of_Z (Z.of_nat a) in
                let y := float_of_Z (Z.of_nat b) in
                Bool.eqb (0 <? y - x)%float (Z.of_nat a <? Z.of_nat b)%Z
                && Bool.eqb (y <=? x)%float (Z.of_nat b <=? Z.of_nat a)%Z)
              (seq 55 44)) (seq 55 44) = true)
    by (vm_compute; reflexivity).
  rewrite forallb_forall in A.
  specialize (A (Z.to_nat n) ltac:(apply in_seq; lia)).
  rewrite forallb_forall in A.
  specialize (A (Z.to_nat m) ltac:(apply in_seq; lia)).
  cbv zeta in A. rewrite !Z2Nat.id in A by lia.
  apply andb_true_iff in A. destruct A as [A B].
  apply eqb_prop in A, B. split; assumption.
Qed.

Lemma insert_permutation (x : enhanced_match) (l : list enhanced_match) :
  Permutation (insert x l) (x :: l).
Proof.
  induction l as [ | y rest IH ]; cbn [insert]; [ reflexivity | ].
  destruct (0 <? comparefn x y)%float; [ | reflexivity ].
  rewrite IH. apply perm_swap.
Qed.

(** Sorting neither drops nor repeats an entry, whatever the scores. *)
Lemma sort_permutation (l : list enhanced_match) : Permutation (sort l) l.
Proof.
  induction l as [ | x rest IH ]; cbn [sort fold_right]; [ reflexivity | ].
  fold (sort rest). rewrite insert_permutation. apply perm_skip, IH.
Qed.

Lemma insert_sorted (x : enhanced_match) (l : list enhanced_match) :
  regular_score (compatibility_score x) ->
  Forall (fun m => regular_score (compatibility_score m)) l ->
  StronglySorted not_below l ->
  StronglySorted not_below (insert x l).
Proof.
  intros [n [Hn En]] Hl Hs.
  induction l as [ | y rest IH ]; cbn [insert].
  - constructor; constructor.
  - inversion Hl as [ | ? ? [m [Hm Em]] Hrest ]; subst.
    inversion Hs as [ | ? ? Hsr Hall ]; subst.
    destruct (regular_scores_compare n m Hn Hm) as [C L].
    destruct (regular_scores_compare m n Hm Hn) as [_ L'].
    unfold comparefn. rewrite En, Em, C.
    destruct (Z.ltb_spec n m) as [Lt | Ge].
    + constructor; [ apply IH; assumption | ].
      apply (Permutation_Forall (x := x :: rest));
        [ symmetry; apply insert_permutation | ].
      constructor; [ | exact Hall ].
      unfold not_below. rewrite En, Em, L'. apply Z.leb_le. lia.
    + constructor; [ exact Hs | ].
      assert (xy : not_below x y).
      { unfold not_below. rewrite En, Em, L. apply Z.leb_le. lia. }
      constructor; [ exact xy | ].
      apply (Forall_impl _ (P := not_below y)); [ | exact Hall ].
      intros z yz. unfold not_below in *.
      apply (Binary64Order.leb_trans _ _ _ yz xy).
Qed.

Lemma sort_sorted (l : list enhanced_match) :
  Forall (fun m => regular_score (compatibility_score m)) l ->
  StronglySorted not_below (sort l).
Proof.
  induction l as [ | x rest IH ]; intros Hl; cbn [sort fold_right].
  - constructor.
  - inversion Hl; subst. fold (sort rest).
    apply insert_sorted; [ assumption | | apply IH; assumption ].
    apply (Permutation_Forall (x := rest)); [ symmetry; apply sort_permutation | assumption ].
Qed.

Lemma revenue_returns (quantity pricePerTon qualityGrade : value) :
  string_or_absent qualityGrade = true ->
  exists amount, calculateDynamicRevenue quantity pricePerTon qualityGrade = Return amount.
Proof.
  intros Hg. unfold calculateDynamicRevenue.
  destruct (negb (ToBoolean quantity) || negb (ToBoolean pricePerTon));
    [ eexists; reflexivity | ].
  destruct qualityGrade; try discriminate Hg; cbn [ToBoolean bind];
    try (eexists; reflexivity).
  destruct (negb (s =? "")%string); cbn [bind]; eexists; reflexivity.
Qed.

Lemma distance_returns (location1 location2 : value) :
  string_or_absent location1 = true ->
  string_or_absent location2 = true ->
  exists km,
    calculateOptimalDistance Math_sin Math_cos Math_sqrt Math_atan2 location1 location2
    = Return km.
Proof.
  intros H1 H2. unfold calculateOptimalDistance.
  rewrite (toLowerCase_optional_typed _ H1), (toLowerCase_optional_typed _ H2).
  cbn [bind]. eexists; reflexivity.
Qed.

(** One well-formed match is enhanced without an exception; the entry keeps
    the match it was made from and carries a regular score. *)
Lemma enhance_returns (waste_type quantity location_ quality_grade : value)
  (m : potential_match) :
  string_or_absent waste_type = true ->
  string_or_absent quality_grade = true ->
  plain_key (lower_key quality_grade) = true ->
  string_or_absent location_ = true ->
  well_formed m ->
  exists e,
    enhance Math_sin Math_cos Math_sqrt Math_atan2
      waste_type quantity location_ quality_grade m = Return e
    /\ source e = m
    /\ regular_score (compatibility_score e).
Proof.
  intros Hw Hg Hp Hl [Hml Hmm]. unfold enhance.
  destruct (distance_returns location_ (location m) Hl Hml) as [km ->].
  destruct (compatibility_range waste_type quantity quality_grade (requirement m)
              Hmm Hw Hg Hp) as [n [-> Hn]].
  destruct (revenue_returns quantity (price_offered (requirement m)) quality_grade Hg)
    as [amount ->].
  cbn [bind estimateLogisticsCost]. eexists. split; [ reflexivity | ].
  split; [ reflexivity | ]. exists n. split; [ exact Hn | reflexivity ].
Qed.

Lemma map_enhance_returns (waste_type quantity location_ quality_grade : value)
  (potentialMatches : list potential_match) :
  string_or_absent waste_type = true ->
  string_or_absent quality_grade = true ->
  plain_key (lower_key quality_grade) = true ->
  string_or_absent location_ = true ->
  Forall well_formed potentialMatches ->
  exists mapped,
    map_result (enhance Math_sin Math_cos Math_sqrt Math_atan2
                  waste_type quantity location_ quality_grade) potentialMatches
    = Return mapped
    /\ map source mapped = potentialMatches
    /\ Forall (fun e => regular_score (compatibility_score e)) mapped.
Proof.
  intros Hw Hg Hp Hl Hall.
  induction potentialMatches as [ | m rest IH ]; cbn [map_result].
  - exists []. repeat split. constructor.
  - inversion Hall as [ | ? ? Hm Hrest ]; subst.
    destruct (enhance_returns waste_type quantity location_ quality_grade m
                Hw Hg Hp Hl Hm) as [e [-> [Se Re]]].
    destruct (IH Hrest) as [mapped [-> [Sm Rm]]].
    cbn [bind]. exists (e :: mapped). split; [ reflexivity | ].
    split; [ cbn [map]; rewrite Se, Sm; reflexivity | constructor; assumption ].
Qed.

(** X15. The matcher ranks every candidate it was given, best score first.
    When the material type, the grade and the seller's location are strings
    or absent, the grade is not a name inherited from Object.prototype, and
    every candidate requirement has a location that is a string or absent
    and a materials list that is an array, a string or absent, the mapping
    and the sort return a list that holds each candidate exactly once, in
    which no entry has a higher score than an entry before it, and whose
    scores are integers from 55 to 98. *)
Theorem matcher_ranks_every_candidate_best_first
  (waste_type quantity location_ quality_grade : value)
  (potentialMatches : list potential_match) :
  string_or_absent waste_type = true ->
  string_or_absent quality_grade = true ->
  plain_key (lower_key quality_grade) = true ->
  string_or_absent location_ = true ->
  Forall well_formed potentialMatches ->
  exists ranked,
    enhancedMatches Math_sin Math_cos Math_sqrt Math_atan2
      waste_type quantity location_ quality_grade potentialMatches = Return ranked
    /\ Permutation (map source ranked) potentialMatches
    /\ StronglySorted
         (fun a b => (compatibility_score b <=? compatibility_score a)%float = true) ranked
    /\ Forall (fun e => regular_score (compatibility_score e)) ranked.
Proof.
  intros Hw Hg Hp Hl Hall. unfold enhancedMatches.
  destruct (map_enhance_returns waste_type quantity location_ quality_grade
              potentialMatches Hw Hg Hp Hl Hall) as [mapped [-> [Sm Rm]]].
  cbn [bind]. exists (sort mapped). split; [ reflexivity | ].
  split; [ | split ].
  - rewrite <- Sm. apply Permutation_map, sort_permutation.
  - apply (sort_sorted mapped Rm).
  - apply (Permutation_Forall (x := mapped)); [ symmetry; apply sort_permutation | exact Rm ].
Qed.

(** X16. The score logged as [top_match_score] is the highest score of the
    ranking.  When the material type, the grade and the seller's location
    are strings or absent, the grade is not a name inherited from
    Object.prototype, every candidate requirement has a location that is a
    string or absent and a materials list that is an array, a string or
    absent, and there is at least one candidate, it is the score of the
    first entry, an integer from 55 to 98 that no entry of the ranking
    exceeds; the [|| 0] default is not taken then. *)
Theorem top_match_score_is_the_maximum
  (waste_type quantity location_ quality_grade : value)
  (potentialMatches : list potential_match) :
  string_or_absent waste_type = true ->
  string_or_absent quality_grade = true ->
  plain_key (lower_key quality_grade) = true ->
  string_or_absent location_ = true ->
  Forall well_formed potentialMatches ->
  potentialMatches <> [] ->
  exists ranked n,
    enhancedMatches Math_sin Math_cos Math_sqrt Math_atan2
      waste_type quantity location_ quality_grade potentialMatches = Return ranked
    /\ top_match_score ranked = Num (float_of_Z n)
    /\ 55 <= n <= 98
    /\ Forall (fun e => (compatibility_score e <=? float_of_Z n)%float = true) ranked.
Proof.
  intros Hw Hg Hp Hl Hall Hne. unfold enhancedMatches.
  destruct (map_enhance_returns waste_type quantity location_ quality_grade
              potentialMatches Hw Hg Hp Hl Hall) as [mapped [-> [Sm Rm]]].
  cbn [bind].
  pose proof (sort_sorted mapped Rm) as Hs.
  assert (Rs : Forall (fun e => regular_score (compatibility_score e)) (sort mapped)).
  { apply (Permutation_Forall (x := mapped)); [ symmetry; apply sort_permutation | exact Rm ]. }
  assert (Ne : sort mapped <> []).
  { intros E. pose proof (sort_permutation mapped) as P. rewrite E in P.
    apply Permutation_nil in P. subst mapped. cbn in Sm. congruence. }
  destruct (sort mapped) as [ | first rest ]; [ congruence | ].
  inversion Rs as [ | ? ? [n [Hn En]] _ ]; subst.
  inversion Hs as [ | ? ? _ Hfirst ]; subst.
  exists (first :: rest), n. split; [ reflexivity | ].
  destruct (regular_scores_compare n n Hn Hn) as [_ L].
  split; [ | split; [ exact Hn | ] ].
  - cbn [top_match_score]. rewrite En. unfold or_else.
    assert (T : ToBoolean (Num (float_of_Z n)) = true).
    { assert (A : forallb (fun k => ToBoolean (Num (float_of_Z (Z.of_nat k)))) (seq 55 44)
                  = true) by (vm_compute; reflexivity).
      rewrite forallb_forall in A. specialize (A (Z.to_nat n)).
      rewrite Z2Nat.id in A by lia. apply A, in_seq. lia. }
    rewrite T. reflexivity.
  - constructor.
    + rewrite En, L. apply Z.leb_le. lia.
    + rewrite <- En. exact Hfirst.
Qed.

End Ranking.

Lemma sample_matches_well_formed : Forall Matcher.well_formed Matcher.sample_matches.
Proof. repeat constructor. Qed.

Lemma matcher_ranks_every_candidate_best_first_witness :
  exists ranked,
    Matcher.enhancedMatches sqrt sqrt sqrt (fun y x => y / x)%float
      (Str "Fly_Ash") (Num 500) (Str "Mumbai") (Str "Premium") Matcher.sample_matches
    = Return ranked
    /\ Permutation (map Matcher.source ranked) Matcher.sample_matches
    /\ StronglySorted
         (fun a b => (Matcher.compatibility_score b <=? Matcher.compatibility_score a)%float = true) ranked
    /\ Forall (fun e => Matcher.regular_score (Matcher.compatibility_score e)) ranked.
Proof.
  apply (matcher_ranks_every_candidate_best_first sqrt sqrt sqrt (fun y x => y / x)%float
           (Str "Fly_Ash") (Num 500) (Str "Mumbai") (Str "Premium") Matcher.sample_matches);
    [ reflexivity | reflexivity | reflexivity | reflexivity
    | exact sample_matches_well_formed ].
Defined.

Lemma top_match_score_is_the_maximum_witness :
  exists ranked n,
    Matcher.enhancedMatches sqrt sqrt sqrt (fun y x => y / x)%float
      (Str "Fly_Ash") (Num 500) (Str "Mumbai") (Str "Premium") Matcher.sample_matches
    = Return ranked
    /\ Matcher.top_match_score ranked = Num (float_of_Z n)
    /\ 55 <= n <= 98
    /\ Forall (fun e => (Matcher.compatibility_score e <=? float_of_Z n)%float = true) ranked.
Proof.
  apply (top_match_score_is_the_maximum sqrt sqrt sqrt (fun y x => y / x)%float
           (Str "Fly_Ash") (Num 500) (Str "Mumbai") (Str "Premium") Matcher.sample_matches);
    [ reflexivity | reflexivity | reflexivity | reflexivity
    | exact sample_matches_well_formed | discriminate ].
Defined.

(** ** When the match is written *)

Section CreateMatchSucceeds.

(** X17. On well-typed documents the match is always written, and the reply
    is the success reply exactly when the steps after the write go through.
    When both identifiers are truthy, the store resolves them to a listing
    and a requirement, the listing's type and grade are strings or absent
    (the grade not a name inherited from Object.prototype), the
    requirement's materials list is an array, a string or absent, and the
    write of the match goes through, then one record is appended, it carries
    the two documents and a score that is an integer from 55 to 98, and the
    reply is either the success reply for that record or the 500 reply: the
    success reply exactly when the notification is written,
    [db.FieldValue.increment(1)] returns and the metrics are written.  When
    [db.FieldValue.increment] throws, the match is written and the reply is
    500. *)
Theorem createMatch_writes_on_typed_documents (body : request_body) (w : world)
  (listing : waste_listing) (requirement : cement_requirement) :
  ToBoolean (wasteId body) = true ->
  ToBoolean (requirementId body) = true ->
  listings w (wasteId body) = Resolved (Some listing) ->
  requirements w (requirementId body) = Resolved (Some requirement) ->
  string_or_absent (type listing) = true ->
  string_or_absent (quality_grade listing) = true ->
  plain_key (lower_key (quality_grade listing)) = true ->
  list_or_absent (materials_needed requirement) = true ->
  matches_add w = Resolved tt ->
  exists (m : match_record) (n : Z),
    matches (snd (createMatch body w)) = (matches w ++ [m])%list
    /\ waste_data m = listing /\ requirement_data m = requirement
    /\ match_score m = float_of_Z n /\ 55 <= n <= 98
    /\ (fst (createMatch body w) = Created m \/ fst (createMatch body w) = ServerError)
    /\ (fst (createMatch body w) = Created m
        <-> notifications_add w = Resolved tt
            /\ FieldValue_increment w = Return tt
            /\ metrics_set w = Resolved tt).
Proof.
  intros Tw Tr Lw Lr Ht Hg Hp Hm Ha.
  unfold createMatch. rewrite Tw, Tr, Lw, Lr. cbn [negb orb].
  destruct (compatibility_range (type listing) (quantity listing) (quality_grade listing)
              requirement Hm Ht Hg Hp) as [n [-> Hn]].
  unfold matchData, Date_now, calculateCO2Impact.
  rewrite (material_key_typed _ Ht). cbn [bind].
  destruct (revenue_returns (quantity listing) (price_offered requirement) Undefined eq_refl)
    as [amount ->].
  cbn [bind matches_add]. rewrite Ha.
  unfold sendEnhancedNotifications, updateMatchingMetrics, Date_now, add_match.
  cbn [notifications_add FieldValue_increment metrics_set matches clock reads].
  eexists. exists n.
  destruct (notifications_add w) as [[] | ];
    [ destruct (FieldValue_increment w) as [[] | [] ];
      [ cbn [metrics_set]; destruct (metrics_set w) as [[] | ] | ] | ];
    cbn [fst snd matches];
    (split; [ reflexivity | ]);
    (split; [ reflexivity | ]);
    (split; [ reflexivity | ]);
    (split; [ reflexivity | ]);
    (split; [ exact Hn | ]);
    (split; [ auto | ]);
    (split; [ intros K; try discriminate K; repeat split; reflexivity
            | intros (K1 & K2 & K3); try discriminate K1; try discriminate K2;
              try discriminate K3; reflexivity ]).
Qed.

Lemma createMatch_writes_on_typed_documents_witness :
  exists (m : match_record) (n : Z),
    matches (snd (createMatch sample_body sample_world))
    = (matches sample_world ++ [m])%list
    /\ waste_data m = sample_listing /\ requirement_data m = sample_requirement
    /\ match_score m = float_of_Z n /\ 55 <= n <= 98
    /\ (fst (createMatch sample_body sample_world) = Created m
        \/ fst (createMatch sample_body sample_world) = ServerError)
    /\ (fst (createMatch sample_body sample_world) = Created m
        <-> notifications_add sample_world = Resolved tt
            /\ FieldValue_increment sample_world = Return tt
            /\ metrics_set sample_world = Resolved tt).
Proof.
  apply (createMatch_writes_on_typed_documents sample_body sample_world
           sample_listing sample_requirement);
    [ reflexivity | reflexivity | reflexivity | reflexivity | reflexivity
    | reflexivity | reflexivity | reflexivity | reflexivity ].
Defined.

End CreateMatchSucceeds.
